(** * bigcommerce/orders.go: the Orders resource of the BigCommerce client

    A shallow embedding of [OrderService] and of the data it sends and
    receives, over an explicit store: Go pointers are locations of a heap,
    a method that writes through its receiver updates the heap in place, and
    the network is the list of requests put on the wire together with the
    remote end that answers them. *)

From Stdlib Require Import ZArith String Ascii List Bool Lia.
From Stdlib Require Import DecimalString DecimalPos DecimalZ.
From stdpp Require Import base option list strings.
Import ListNotations.

Local Open Scope string_scope.
Local Open Scope list_scope.

(** ** Go values *)

(** [fmt.Sprintf("%d", n)]: the decimal rendering of an integer. *)
Definition Sprintf_d (n : Z) : string := NilZero.string_of_int (Z.to_int n).

(** [strconv.ParseInt(s, 10, 32)] as the JSON decoder uses it for an [int32]
    destination: a decimal integer literal inside the 32-bit range. *)
Definition parse_int32 (s : string) : option Z :=
  match NilZero.int_of_string s with
  | Some d =>
      let z := Z.of_int d in
      if ((-2147483648 <=? z) && (z <=? 2147483647))%Z then Some z else None
  | None => None
  end.

(** A [float32] is only compared with zero and printed by this package, so it
    is kept symbolic: zero, or a finite non-zero value given by the decimal
    text that [strconv.FormatFloat] and [encoding/json] print for it. *)
Inductive float32 : Type :=
  | F32Zero
  | F32 (text : string).

Definition float32_is_zero (f : float32) : bool :=
  match f with F32Zero => true | F32 _ => false end.

Definition float32_text (f : float32) : string :=
  match f with F32Zero => "0" | F32 t => t end.

(** A Go slice is [nil] or a sequence; [len] of the nil slice is 0. *)
Definition slice (A : Type) : Type := option (list A).

Definition slice_len {A : Type} (s : slice A) : nat :=
  match s with None => 0 | Some l => length l end.

(** ** JSON values

    Values as [encoding/json] sees them between the lexer and the typed
    structures: a number keeps its text on the wire, a string its content
    after unquoting, an object its members in order. *)
#[warnings="-register-all"] Inductive JSON : Type :=
  | JNull
  | JBool (b : bool)
  | JNumber (text : string)
  | JString (s : string)
  | JArray (items : list JSON)
  | JObject (members : list (string * JSON)).

Definition members : Type := list (string * JSON).

Definition is_JNull (j : JSON) : bool :=
  match j with JNull => true | _ => false end.

(** Membership of a key among the members of an object. *)
Definition has_key (k : string) (m : members) : bool :=
  existsb (fun kv => String.eqb (fst kv) k) m.

(** The values an object carries under a key, in order. *)
Definition values_of (k : string) (m : members) : list JSON :=
  map snd (List.filter (fun kv => String.eqb (fst kv) k) m).

(** *** Field selection of the decoder

    [encoding/json] matches an object key against the struct's field names
    exactly, and failing that under Unicode simple case folding.  Against the
    ASCII names used here folding is: ASCII letters to upper case, U+017F
    (long s, bytes C5 BF) to S and U+212A (Kelvin sign, bytes E2 84 AA) to K. *)
Definition ascii_upper (c : ascii) : ascii :=
  let n := nat_of_ascii c in
  if (97 <=? n)%nat && (n <=? 122)%nat then ascii_of_nat (n - 32) else c.

Definition is_byte (c : ascii) (n : nat) : bool := Nat.eqb (nat_of_ascii c) n.

Fixpoint foldName (s : string) : string :=
  match s with
  | EmptyString => EmptyString
  | String c1 r1 =>
      match r1 with
      | String c2 r2 =>
          if is_byte c1 197 && is_byte c2 191 then String "S" (foldName r2)
          else
            match r2 with
            | String c3 r3 =>
                if is_byte c1 226 && is_byte c2 132 && is_byte c3 170
                then String "K" (foldName r3)
                else String (ascii_upper c1) (foldName r1)
            | EmptyString => String (ascii_upper c1) (foldName r1)
            end
      | EmptyString => String (ascii_upper c1) EmptyString
      end
  end.

(** The field (named by its tag) that the decoder selects for a key. *)
Definition resolve (tags : list string) (key : string) : option string :=
  match find (String.eqb key) tags with
  | Some t => Some t
  | None => find (fun t => String.eqb (foldName t) (foldName key)) tags
  end.

(** The members of an object that the decoder routes to the field [tag]. *)
Definition routed (tags : list string) (tag : string) (m : members) : list JSON :=
  map snd
    (List.filter (fun kv =>
               match resolve tags (fst kv) with
               | Some t => String.eqb t tag
               | None => false
               end) m).

(** Decoding the routed values one after the other into a destination:
    [null] leaves it alone, a value of the right kind replaces it, any other
    value is a type error that leaves it alone and is reported at the end. *)
Definition into_string (old : string) (vs : list JSON) : string :=
  fold_left (fun acc v => match v with JString s => s | _ => acc end) vs old.

Definition string_ok (v : JSON) : bool :=
  match v with JString _ | JNull => true | _ => false end.

Definition into_int32 (old : Z) (vs : list JSON) : Z :=
  fold_left (fun acc v =>
               match v with
               | JNumber t => match parse_int32 t with Some z => z | None => acc end
               | _ => acc
               end) vs old.

Definition int32_ok (v : JSON) : bool :=
  match v with
  | JNull => true
  | JNumber t => match parse_int32 t with Some _ => true | None => false end
  | _ => false
  end.

(** ** The data model of orders.go *)

(** Modelled from the spec: [AddressEntity], "an external billing/shipping
    address structure, defined outside this core".  Its fields are declared
    in another file of the package; the struct is represented by the members
    of its JSON object, and its zero value by the absence of any. *)
Record AddressEntity : Type := mkAddressEntity {
  address_members : members
}.

Definition AddressEntity_zero : AddressEntity := mkAddressEntity [].

(** Modelled from the spec: [AddressEntities], the "list of shipping
    addresses" of an order body, a slice of [AddressEntity]. *)
Definition AddressEntities : Type := slice AddressEntity.

(** [type Order struct]: the fields in the order of the declaration. *)
Record Order : Type := mkOrder {
  ID : Z;
  CustomerID : Z;
  DateCreated : string;
  DateModified : string;
  DateShipped : string;
  StatusID : Z;
  Status : string;
  HandlingCostExTax : string;
  HandlingCostIncTax : string;
  HandlingCostTax : string;
  ShippingCostExTax : string;
  ShippingCostIncTax : string;
  ShippingCostTax : string;
  SubTotalExTax : string;
  SubTotalIncTax : string;
  SubTotalTax : string;
  TotalExTax : string;
  TotalIncTax : string;
  TotalTax : string;
  BaseShippingCost : string;
  ItemsTotal : Z;
  PaymentMethod : string;
  PaymentStatus : string;
  IPAddress : string;
  CurrencyID : Z;
  CurrencyCode : string;
  StaffNotes : string;
  CustomerMessage : string;
  DiscountAmount : string;
  CouponDiscount : string;
  ShippingAddressCount : Z;
  BillingAddress : AddressEntity
}.

Definition Order_zero : Order :=
  mkOrder 0 0 "" "" "" 0 "" "" "" "" "" "" "" "" "" "" "" "" "" "" 0 "" "" ""
          0 "" "" "" "" "" 0 AddressEntity_zero.

(** The [json:"..."] tags of [Order], in the order of the declaration. *)
Definition Order_tags : list string :=
  [ "id"; "customer_id"; "date_created"; "date_modified"; "date_shipped";
    "status_id"; "status"; "handling_cost_ex_tax"; "handling_cost_inc_tax";
    "handling_cost_tax"; "shipping_cost_ex_tax"; "shipping_cost_inc_tax";
    "shipping_cost_tax"; "subtotal_ex_tax"; "subtotal_inc_tax"; "subtotal_tax";
    "total_ex_tax"; "total_inc_tax"; "total_tax"; "base_shipping_cost";
    "items_total"; "payment_method"; "payment_status"; "ip_address";
    "currency_id"; "currency_code"; "staff_notes"; "customer_message";
    "discount_amount"; "counpon_discount"; "shipping_address_count";
    "billing_address" ].

(** [type Orders []Order]. *)
Definition Orders : Type := slice Order.

(** Modelled from the spec: [Count], "a wrapper type holding an integer
    result count for list-style queries", declared outside orders.go. *)
Record Count : Type := mkCount {
  Count_value : Z
}.

Definition Count_zero : Count := mkCount 0.
Definition Count_tags : list string := [ "count" ].

(** Modelled from the spec: [APIError], the "structured error payload
    returned by the platform API on failure", declared outside orders.go.
    The payload is kept as the JSON value of the error body; the zero value
    carries none and is the only empty one. *)
Record APIError : Type := mkAPIError {
  api_payload : JSON
}.

Definition APIError_zero : APIError := mkAPIError JNull.
Definition APIError_Empty (e : APIError) : bool := is_JNull (api_payload e).

(** [type OrderListParams struct]; a [*uint32] is [None] when nil. *)
Record OrderListParams : Type := mkOrderListParams {
  lp_Page : Z;
  lp_Limit : Z;
  lp_Sort : string;
  lp_MinID : Z;
  lp_MaxID : Z;
  lp_MinTotal : float32;
  lp_MaxTotal : float32;
  lp_CustomerID : option Z;
  lp_Email : string;
  lp_StatusID : option Z;
  lp_PaymentMethod : string
}.

Definition OrderListParams_zero : OrderListParams :=
  mkOrderListParams 0 0 "" 0 0 F32Zero F32Zero None "" None "".

(** [type OrderProduct struct] and [type OrderProducts []OrderProduct]. *)
Record OrderProduct : Type := mkOrderProduct {
  ProductID : Z;
  ProductName : string;
  Quantity : Z;
  PriceIncTax : float32;
  PriceExTax : float32
}.

Definition OrderProducts : Type := slice OrderProduct.

(** [type OrderBody struct]. *)
Record OrderBody : Type := mkOrderBody {
  ob_ExternalSource : string;
  ob_CustomerID : option Z;
  ob_StatusID : option Z;
  ob_BillingAddress : AddressEntity;
  ob_Products : OrderProducts;
  ob_ShippingCostIncTax : float32;
  ob_ShippingCostExTax : float32;
  ob_HandlingCostIncTax : float32;
  ob_HandlingCostExTax : float32;
  ob_ShippingAddresses : AddressEntities;
  ob_CustomerMessage : string;
  ob_StaffNotes : string
}.

Definition OrderBody_zero : OrderBody :=
  mkOrderBody "" None None AddressEntity_zero None F32Zero F32Zero F32Zero
              F32Zero None "" "".

(** [type OrderEditParams struct]. *)
Record OrderEditParams : Type := mkOrderEditParams {
  ep_CustomerID : option Z;
  ep_StatusID : option Z;
  ep_IPAddress : string;
  ep_StaffNotes : string;
  ep_CustomerMessage : string;
  ep_BillingAddress : AddressEntity
}.

Definition OrderEditParams_zero : OrderEditParams :=
  mkOrderEditParams None None "" "" "" AddressEntity_zero.

(** ** encoding/json: decoding the response bodies *)

(** The fields of [Order] declared [int32]; [billing_address] is a struct
    and every other field is a [string]. *)
Definition Order_int32_tags : list string :=
  [ "id"; "customer_id"; "status_id"; "items_total"; "currency_id";
    "shipping_address_count" ].

Definition into_address (old : AddressEntity) (vs : list JSON) : AddressEntity :=
  fold_left (fun acc v =>
               match v with
               | JObject m => mkAddressEntity (address_members acc ++ m)
               | _ => acc
               end) vs old.

Definition address_ok (v : JSON) : bool :=
  match v with JObject _ | JNull => true | _ => false end.

Definition Order_value_ok (tag : string) (v : JSON) : bool :=
  if String.eqb tag "billing_address" then address_ok v
  else if existsb (String.eqb tag) Order_int32_tags then int32_ok v
  else string_ok v.

(** No member of the object is a type error for the field it is routed to;
    members that match no field are skipped. *)
Definition Order_members_ok (m : members) : bool :=
  forallb (fun kv =>
             match resolve Order_tags (fst kv) with
             | Some t => Order_value_ok t (snd kv)
             | None => true
             end) m.

Definition decode_Order_members (m : members) (o : Order) : Order :=
  let int tag old := into_int32 old (routed Order_tags tag m) in
  let str tag old := into_string old (routed Order_tags tag m) in
  {| ID := int "id" (ID o);
     CustomerID := int "customer_id" (CustomerID o);
     DateCreated := str "date_created" (DateCreated o);
     DateModified := str "date_modified" (DateModified o);
     DateShipped := str "date_shipped" (DateShipped o);
     StatusID := int "status_id" (StatusID o);
     Status := str "status" (Status o);
     HandlingCostExTax := str "handling_cost_ex_tax" (HandlingCostExTax o);
     HandlingCostIncTax := str "handling_cost_inc_tax" (HandlingCostIncTax o);
     HandlingCostTax := str "handling_cost_tax" (HandlingCostTax o);
     ShippingCostExTax := str "shipping_cost_ex_tax" (ShippingCostExTax o);
     ShippingCostIncTax := str "shipping_cost_inc_tax" (ShippingCostIncTax o);
     ShippingCostTax := str "shipping_cost_tax" (ShippingCostTax o);
     SubTotalExTax := str "subtotal_ex_tax" (SubTotalExTax o);
     SubTotalIncTax := str "subtotal_inc_tax" (SubTotalIncTax o);
     SubTotalTax := str "subtotal_tax" (SubTotalTax o);
     TotalExTax := str "total_ex_tax" (TotalExTax o);
     TotalIncTax := str "total_inc_tax" (TotalIncTax o);
     TotalTax := str "total_tax" (TotalTax o);
     BaseShippingCost := str "base_shipping_cost" (BaseShippingCost o);
     ItemsTotal := int "items_total" (ItemsTotal o);
     PaymentMethod := str "payment_method" (PaymentMethod o);
     PaymentStatus := str "payment_status" (PaymentStatus o);
     IPAddress := str "ip_address" (IPAddress o);
     CurrencyID := int "currency_id" (CurrencyID o);
     CurrencyCode := str "currency_code" (CurrencyCode o);
     StaffNotes := str "staff_notes" (StaffNotes o);
     CustomerMessage := str "customer_message" (CustomerMessage o);
     DiscountAmount := str "discount_amount" (DiscountAmount o);
     CouponDiscount := str "counpon_discount" (CouponDiscount o);
     ShippingAddressCount :=
       int "shipping_address_count" (ShippingAddressCount o);
     BillingAddress :=
       into_address (BillingAddress o) (routed Order_tags "billing_address" m) |}.

(** [json.Unmarshal] into an [*Order]: the decoded value and whether the
    decoder reported no error. *)
Definition decode_Order (j : JSON) (o : Order) : Order * bool :=
  match j with
  | JObject m => (decode_Order_members m o, Order_members_ok m)
  | JNull => (o, true)
  | _ => (o, false)
  end.

(** The elements of an array go to the elements of the slice position by
    position, to fresh zero elements past its length. *)
Fixpoint decode_Order_items (items : list JSON) (old : list Order)
  : list (Order * bool) :=
  match items with
  | [] => []
  | j :: js =>
      match old with
      | [] => decode_Order j Order_zero :: decode_Order_items js []
      | o :: os => decode_Order j o :: decode_Order_items js os
      end
  end.

Definition decode_Orders (j : JSON) (v : Orders) : Orders * bool :=
  match j with
  | JArray items =>
      let r := decode_Order_items items (default [] v) in
      (Some (map fst r), forallb snd r)
  | JNull => (v, true)
  | _ => (v, false)
  end.

Definition decode_Count (j : JSON) (c : Count) : Count * bool :=
  match j with
  | JObject m =>
      (mkCount (into_int32 (Count_value c) (routed Count_tags "count" m)),
       forallb (fun kv =>
                  match resolve Count_tags (fst kv) with
                  | Some _ => int32_ok (snd kv)
                  | None => true
                  end) m)
  | JNull => (c, true)
  | _ => (c, false)
  end.

Definition decode_APIError (j : JSON) (e : APIError) : APIError * bool :=
  match j with
  | JNull => (e, true)
  | _ => (mkAPIError j, true)
  end.

(** ** encoding/json: encoding the request bodies *)

(** A member tagged [omitempty] is dropped when [isEmptyValue] holds of the
    field.  [isEmptyValue] is the length test for strings and slices, the
    zero test for numbers, the nil test for pointers, and false for every
    struct value. *)
Definition omitempty (empty : bool) (key : string) (v : JSON) : members :=
  if empty then [] else [(key, v)].

Definition empty_string (s : string) : bool := String.eqb s "".
Definition empty_int (n : Z) : bool := Z.eqb n 0.
Definition empty_ptr {A : Type} (p : option A) : bool :=
  match p with None => true | Some _ => false end.
Definition empty_slice {A : Type} (s : slice A) : bool := Nat.eqb (slice_len s) 0.
Definition empty_struct {A : Type} (v : A) : bool := false.

Definition encode_int (n : Z) : JSON := JNumber (Sprintf_d n).
Definition encode_float32 (f : float32) : JSON := JNumber (float32_text f).

Definition encode_ptr (p : option Z) : JSON :=
  match p with None => JNull | Some n => encode_int n end.

Definition encode_slice {A : Type} (enc : A -> JSON) (s : slice A) : JSON :=
  match s with None => JNull | Some l => JArray (map enc l) end.

Definition encode_AddressEntity (a : AddressEntity) : JSON :=
  JObject (address_members a).

Definition encode_OrderProduct (p : OrderProduct) : JSON :=
  JObject
    (omitempty (empty_int (ProductID p)) "product_id" (encode_int (ProductID p))
     ++ omitempty (empty_string (ProductName p)) "name" (JString (ProductName p))
     ++ [("quantity", encode_int (Quantity p))]
     ++ omitempty (float32_is_zero (PriceIncTax p)) "price_inc_tax"
          (encode_float32 (PriceIncTax p))
     ++ omitempty (float32_is_zero (PriceExTax p)) "price_ex_tax"
          (encode_float32 (PriceExTax p))).

Definition OrderBody_members (b : OrderBody) : members :=
  [ ("external_source", JString (ob_ExternalSource b));
    ("customer_id", encode_ptr (ob_CustomerID b));
    ("status_id", encode_ptr (ob_StatusID b));
    ("billing_address", encode_AddressEntity (ob_BillingAddress b));
    ("products", encode_slice encode_OrderProduct (ob_Products b)) ]
  ++ omitempty (float32_is_zero (ob_ShippingCostIncTax b)) "shipping_cost_inc_tax"
       (encode_float32 (ob_ShippingCostIncTax b))
  ++ omitempty (float32_is_zero (ob_ShippingCostExTax b)) "shipping_cost_ex_tax"
       (encode_float32 (ob_ShippingCostExTax b))
  ++ omitempty (float32_is_zero (ob_HandlingCostIncTax b)) "handling_cost_inc_tax"
       (encode_float32 (ob_HandlingCostIncTax b))
  ++ omitempty (float32_is_zero (ob_HandlingCostExTax b)) "handling_cost_ex_tax"
       (encode_float32 (ob_HandlingCostExTax b))
  ++ omitempty (empty_slice (ob_ShippingAddresses b)) "shipping_addresses"
       (encode_slice encode_AddressEntity (ob_ShippingAddresses b))
  ++ [ ("customer_message", JString (ob_CustomerMessage b));
       ("staff_notes", JString (ob_StaffNotes b)) ].

Definition OrderEditParams_members (p : OrderEditParams) : members :=
  omitempty (empty_ptr (ep_CustomerID p)) "customer_id" (encode_ptr (ep_CustomerID p))
  ++ omitempty (empty_ptr (ep_StatusID p)) "status_id" (encode_ptr (ep_StatusID p))
  ++ omitempty (empty_string (ep_IPAddress p)) "ip_address" (JString (ep_IPAddress p))
  ++ omitempty (empty_string (ep_StaffNotes p)) "staff_notes" (JString (ep_StaffNotes p))
  ++ omitempty (empty_string (ep_CustomerMessage p)) "customer_message"
       (JString (ep_CustomerMessage p))
  ++ omitempty (empty_struct (ep_BillingAddress p)) "billing_address"
       (encode_AddressEntity (ep_BillingAddress p)).

(** The payload handed to [BodyJSON]: a pointer to one of the two structs,
    [None] when the pointer is nil (which marshals to [null]). *)
Inductive Payload : Type :=
  | PayloadOrderBody (b : option OrderBody)
  | PayloadOrderEditParams (p : option OrderEditParams).

Definition Marshal (p : Payload) : JSON :=
  match p with
  | PayloadOrderBody (Some b) => JObject (OrderBody_members b)
  | PayloadOrderEditParams (Some e) => JObject (OrderEditParams_members e)
  | PayloadOrderBody None | PayloadOrderEditParams None => JNull
  end.

(** ** net/url and go-querystring *)

(** A URL without query or fragment: scheme and authority, then the path.
    The base URL of the API and every URL built from it are of this form. *)
Record URL : Type := mkURL {
  url_origin : string;
  url_path : string
}.

Fixpoint has_slash (s : string) : bool :=
  match s with
  | EmptyString => false
  | String c r => Ascii.eqb c "/" || has_slash r
  end.

(** [base[:strings.LastIndex(base, "/")+1]]. *)
Fixpoint dir_of (base : string) : string :=
  match base with
  | EmptyString => EmptyString
  | String c r =>
      if has_slash r then String c (dir_of r)
      else if Ascii.eqb c "/" then "/" else EmptyString
  end.

Definition starts_with_slash (s : string) : bool :=
  match s with String c _ => Ascii.eqb c "/" | EmptyString => false end.

(** [resolvePath] of net/url on paths without [.] and [..] segments (none of
    the references of orders.go has one): an empty reference keeps the base,
    a relative one replaces what follows the last slash of the base, and the
    result is rooted. *)
Definition resolvePath (base ref : string) : string :=
  let full :=
    if String.eqb ref "" then base
    else if starts_with_slash ref then ref
    else dir_of base +:+ ref in
  if String.eqb full "" then ""
  else if starts_with_slash full then full
  else "/" +:+ full.

(** [u.ResolveReference(ref)] for a reference that is a bare path. *)
Definition ResolveReference (u : URL) (ref : string) : URL :=
  mkURL (url_origin u) (resolvePath (url_path u) ref).

(** [url.Values]: a map from keys to the values added under them, in the
    order they were added. *)
Definition Values : Type := list (string * list string).

(** [vs.Add(key, value)]. *)
Fixpoint Values_Add (key value : string) (vs : Values) : Values :=
  match vs with
  | [] => [(key, [value])]
  | (k, l) :: r =>
      if String.eqb k key then (k, l ++ [value]) :: r
      else (k, l) :: Values_Add key value r
  end.

(** [vs[key]]: all the values of a key, none when the key is absent. *)
Definition Values_at (key : string) (vs : Values) : list string :=
  match find (fun kv => String.eqb (fst kv) key) vs with
  | Some kv => snd kv
  | None => []
  end.

(** [vs.Has(key)]. *)
Definition Values_Has (key : string) (vs : Values) : bool :=
  existsb (fun kv => String.eqb (fst kv) key) vs.

Definition hex_digit (n : nat) : ascii :=
  nth n (list_ascii_of_string "0123456789ABCDEF") "0"%char.

Definition unreserved (c : ascii) : bool :=
  let n := nat_of_ascii c in
  ((48 <=? n)%nat && (n <=? 57)%nat) || ((65 <=? n)%nat && (n <=? 90)%nat)
  || ((97 <=? n)%nat && (n <=? 122)%nat)
  || Ascii.eqb c "-" || Ascii.eqb c "_" || Ascii.eqb c "." || Ascii.eqb c "~".

Fixpoint QueryEscape (s : string) : string :=
  match s with
  | EmptyString => EmptyString
  | String c r =>
      if unreserved c then String c (QueryEscape r)
      else if Ascii.eqb c " " then String "+" (QueryEscape r)
      else
        let n := nat_of_ascii c in
        String "%" (String (hex_digit (n / 16))
                      (String (hex_digit (n mod 16)) (QueryEscape r)))
  end.

Fixpoint insert_key (k : string) (ks : list string) : list string :=
  match ks with
  | [] => [k]
  | k' :: r => if String.leb k k' then k :: ks else k' :: insert_key k r
  end.

Definition sort_keys (ks : list string) : list string :=
  fold_right insert_key [] ks.

(** [vs.Encode()]: the keys in sorted order, each with its values, as
    [key=value] pairs joined by [&]. *)
Definition Values_Encode (vs : Values) : string :=
  String.concat "&"
    (flat_map (fun k =>
                 map (fun v => QueryEscape k +:+ "=" +:+ QueryEscape v)
                     (Values_at k vs))
              (sort_keys (map fst vs))).

(** go-querystring on the [url:"...,omitempty"] tags of [OrderListParams]:
    the pairs that [query.Values] emits for a (possibly nil) pointer to the
    struct.  A nil pointer field is empty; a non-nil one is never empty and
    is printed through the pointer. *)
Definition query_field (empty : bool) (key value : string)
  : list (string * string) :=
  if empty then [] else [(key, value)].

Definition query_ptr (key : string) (p : option Z) : list (string * string) :=
  match p with
  | None => []
  | Some n => [(key, Sprintf_d n)]
  end.

Definition query_Values (params : option OrderListParams)
  : list (string * string) :=
  match params with
  | None => []
  | Some p =>
      query_field (empty_int (lp_Page p)) "page" (Sprintf_d (lp_Page p))
      ++ query_field (empty_int (lp_Limit p)) "limit" (Sprintf_d (lp_Limit p))
      ++ query_field (empty_string (lp_Sort p)) "sort" (lp_Sort p)
      ++ query_field (empty_int (lp_MinID p)) "min_id" (Sprintf_d (lp_MinID p))
      ++ query_field (empty_int (lp_MaxID p)) "max_id" (Sprintf_d (lp_MaxID p))
      ++ query_field (float32_is_zero (lp_MinTotal p)) "min_total"
           (float32_text (lp_MinTotal p))
      ++ query_field (float32_is_zero (lp_MaxTotal p)) "max_total"
           (float32_text (lp_MaxTotal p))
      ++ query_ptr "customer_id" (lp_CustomerID p)
      ++ query_field (empty_string (lp_Email p)) "email" (lp_Email p)
      ++ query_ptr "status_id" (lp_StatusID p)
      ++ query_field (empty_string (lp_PaymentMethod p)) "payment_method"
           (lp_PaymentMethod p)
  end.

Definition add_pairs (vs : Values) (kvs : list (string * string)) : Values :=
  fold_left (fun acc kv => Values_Add (fst kv) (snd kv) acc) kvs vs.

(** [addQueryStructs] of sling: every query struct of the sling, in the
    order they were appended, adds its pairs to the query of the request. *)
Definition addQueryStructs (queryStructs : list (option OrderListParams))
  : Values :=
  fold_left (fun acc q => add_pairs acc (query_Values q)) queryStructs [].

(** ** github.com/dghubble/sling, the request builder

    The package orders.go imports to build its requests.  A Sling holds the
    method, the URL, the headers, the query structs and the body of the
    request under construction. *)

Definition Header : Type := list (string * string).

Definition Header_Set (key value : string) (h : Header) : Header :=
  List.filter (fun kv => negb (String.eqb (fst kv) key)) h ++ [(key, value)].

(** [type Sling struct]: the fields a request is built from.  A query
    struct is the pointer that was handed to [QueryStruct]; the model keeps
    the value it points to ([None] for a nil pointer), the callers
    considered here not changing it between calls. *)
Record Sling : Type := mkSling {
  method : string;
  rawURL : URL;
  header : Header;
  queryStructs : list (option OrderListParams);
  bodyProvider : option Payload
}.

(** [*http.Request] as it leaves the client. *)
Record Request : Type := mkRequest {
  req_method : string;
  req_url : URL;
  req_query : Values;
  req_header : Header;
  req_body : option JSON
}.

(** [s.Request()]. *)
Definition Sling_Request (s : Sling) : Request :=
  mkRequest (method s) (rawURL s) (addQueryStructs (queryStructs s))
            (header s) (option_map Marshal (bodyProvider s)).

(** The request target as a string. *)
Definition Request_URI (r : Request) : string :=
  url_origin (req_url r) +:+ url_path (req_url r)
  +:+ (if String.eqb (Values_Encode (req_query r)) "" then ""
       else "?" +:+ Values_Encode (req_query r)).

(** ** The store and the network *)

(** A pointer is a location of the heap. *)
Definition loc : Type := nat.

(** What the pointers of this package point to. *)
Inductive Object : Type :=
  | OSling (s : Sling)
  | OOrders (v : Orders)
  | OCount (v : Count)
  | OOrder (v : Order)
  | OAPIError (v : APIError).

(** [*http.Client] and [context.Context], known by their identity only. *)
Definition Client : Type := nat.
Definition Context : Type := nat.

(** [*http.Response]: the status and the body, [None] when the body is not
    a JSON text. *)
Record Response : Type := mkResponse {
  StatusCode : Z;
  Body : option JSON
}.

(** What comes back from the network for a request. *)
Inductive Outcome : Type :=
  | Failed (reason : string)
  | Replied (resp : Response).

(** The Go [error] values this package returns. *)
Inductive error : Type :=
  | TransportError (reason : string)
  | APIErr (e : APIError).

(** The state a call runs in: the heap, the requests put on the wire so far,
    and the remote end, which answers a request of a client under a context
    knowing the requests that preceded it. *)
Record World : Type := mkWorld {
  heap : list Object;
  wire : list Request;
  remote : Client -> Context -> list Request -> Request -> Outcome
}.

(** Computations over the world; [None] is a run-time panic (a nil or
    ill-typed pointer dereference). *)
Definition M (A : Type) : Type := World -> option (A * World).

Definition ret {A : Type} (a : A) : M A := fun w => Some (a, w).

Definition bind {A B : Type} (m : M A) (k : A -> M B) : M B :=
  fun w => match m w with
           | Some (a, w') => k a w'
           | None => None
           end.

Definition panic {A : Type} : M A := fun _ => None.

Notation "x <- c1 ;; c2" := (bind c1 (fun x => c2))
  (at level 100, c1 at next level, right associativity).
Notation "c1 ;; c2" := (bind c1 (fun _ => c2))
  (at level 100, right associativity).

(** [new(T)]: a fresh location holding the zero value of [T]. *)
Definition new (zero : Object) : M loc :=
  fun w => Some (length (heap w),
                 mkWorld (heap w ++ [zero]) (wire w) (remote w)).

Definition load (l : loc) : M Object :=
  fun w => match heap w !! l with
           | Some o => Some (o, w)
           | None => None
           end.

Definition store (l : loc) (o : Object) : M unit :=
  fun w => match heap w !! l with
           | Some _ => Some (tt, mkWorld (<[l:=o]> (heap w)) (wire w) (remote w))
           | None => None
           end.

Definition load_sling (l : loc) : M Sling :=
  o <- load l ;;
  match o with
  | OSling s => ret s
  | _ => panic
  end.

Definition load_APIError (l : loc) : M APIError :=
  o <- load l ;;
  match o with
  | OAPIError e => ret e
  | _ => panic
  end.

(** [httpClient.Do(req)]: the request goes on the wire and the remote end
    answers it. *)
Definition Do (httpClient : Client) (ctx : Context) (req : Request) : M Outcome :=
  fun w => Some (remote w httpClient ctx (wire w) req,
                 mkWorld (heap w) (wire w ++ [req]) (remote w)).

(** *** The methods of [*sling.Sling]

    [New] copies its receiver into a fresh Sling; every other method writes
    through its receiver and returns it. *)
Definition Sling_New (s : loc) : M loc :=
  v <- load_sling s ;;
  new (OSling (mkSling (method v) (rawURL v) (header v) (queryStructs v)
                       (bodyProvider v))).

Definition Sling_Path (path : string) (s : loc) : M loc :=
  v <- load_sling s ;;
  store s (OSling (mkSling (method v) (ResolveReference (rawURL v) path)
                           (header v) (queryStructs v) (bodyProvider v))) ;;
  ret s.

Definition Sling_method (m : string) (s : loc) : M unit :=
  v <- load_sling s ;;
  store s (OSling (mkSling m (rawURL v) (header v) (queryStructs v)
                           (bodyProvider v))).

Definition Sling_Get (pathURL : string) (s : loc) : M loc :=
  Sling_method "GET" s ;; Sling_Path pathURL s.

Definition Sling_Post (pathURL : string) (s : loc) : M loc :=
  Sling_method "POST" s ;; Sling_Path pathURL s.

Definition Sling_Put (pathURL : string) (s : loc) : M loc :=
  Sling_method "PUT" s ;; Sling_Path pathURL s.

(** The argument is a typed pointer inside an interface, which is never the
    nil interface: it is appended also when the pointer is nil. *)
Definition Sling_QueryStruct (queryStruct : option OrderListParams) (s : loc)
  : M loc :=
  v <- load_sling s ;;
  store s (OSling (mkSling (method v) (rawURL v) (header v)
                           (queryStructs v ++ [queryStruct]) (bodyProvider v))) ;;
  ret s.

Definition Sling_BodyJSON (bodyJSON : Payload) (s : loc) : M loc :=
  v <- load_sling s ;;
  store s (OSling (mkSling (method v) (rawURL v)
                           (Header_Set "Content-Type" "application/json" (header v))
                           (queryStructs v) (Some bodyJSON))) ;;
  ret s.

(** ** The shared plumbing of the package *)

Definition is_2xx (code : Z) : bool := ((200 <=? code) && (code <=? 299))%Z.

(** [json.Unmarshal] of a body into the object a destination points to. *)
Definition decode_into (j : JSON) (o : Object) : Object * bool :=
  match o with
  | OOrders v => let '(v', ok) := decode_Orders j v in (OOrders v', ok)
  | OCount v => let '(v', ok) := decode_Count j v in (OCount v', ok)
  | OOrder v => let '(v', ok) := decode_Order j v in (OOrder v', ok)
  | OAPIError v => let '(v', ok) := decode_APIError j v in (OAPIError v', ok)
  | OSling _ => (o, false)
  end.

Definition malformed : error := TransportError "malformed response".

(** Modelled from the spec: the part of [performRequest] that populates the
    two destinations from what came back, and the response and error it
    hands back: a network failure and a malformed response are
    transport errors; the body of a 2xx response is decoded into the success
    destination, the body of any other response into the error destination. *)
Definition receive (out : Outcome) (success failure : Object)
  : Object * Object * option Response * option error :=
  match out with
  | Failed reason => (success, failure, None, Some (TransportError reason))
  | Replied resp =>
      match Body resp with
      | None => (success, failure, Some resp, Some malformed)
      | Some j =>
          if is_2xx (StatusCode resp) then
            let '(o, ok) := decode_into j success in
            (o, failure, Some resp, if ok then None else Some malformed)
          else
            let '(o, ok) := decode_into j failure in
            (success, o, Some resp, if ok then None else Some malformed)
      end
  end.

(** Modelled from the spec: [performRequest], the "generic HTTP request
    executor that takes a prepared request, a destination value, and an
    error-destination value, and returns the raw response plus a
    possibly-wrapped error", defined in another file of the package.  It
    sends the request the sling describes, once, and populates the two
    destinations from what comes back. *)
Definition performRequest (ctx : Context) (sling : loc) (httpClient : Client)
    (successV failureV : loc) : M (option Response * option error) :=
  s <- load_sling sling ;;
  out <- Do httpClient ctx (Sling_Request s) ;;
  success <- load successV ;;
  failure <- load failureV ;;
  let '(success', failure', resp, err) := receive out success failure in
  store successV success' ;;
  store failureV failure' ;;
  ret (resp, err).

(** Modelled from the spec: [relevantError], the "error-relevance selector
    that decides whether a transport error or an API-reported error should
    be surfaced", defined in another file of the package: the transport
    error when there is one, else the API error when its payload is not
    empty, else no error. *)
Definition relevantError (httpError : option error) (apiError : APIError)
  : option error :=
  match httpError with
  | Some e => Some e
  | None => if APIError_Empty apiError then None else Some (APIErr apiError)
  end.

(** ** OrderService *)

Record OrderService : Type := mkOrderService {
  sling : loc;
  httpClient : Client
}.

Definition newOrderService (sling : loc) (httpClient : Client) : M OrderService :=
  s <- Sling_Path "orders/" sling ;;
  ret (mkOrderService s httpClient).

(** What a method returns: the payload pointer, the response and the error. *)
Definition Result : Type := loc * option Response * option error.

Definition OrderService_List (s : OrderService) (ctx : Context)
    (params : option OrderListParams) : M Result :=
  orders <- new (OOrders None) ;;
  apiError <- new (OAPIError APIError_zero) ;;
  req <- (r <- Sling_New (sling s) ;; Sling_QueryStruct params r) ;;
  re <- performRequest ctx req (httpClient s) orders apiError ;;
  e <- load_APIError apiError ;;
  let '(resp, err) := re in
  ret (orders, resp, relevantError err e).

Definition OrderService_Count (s : OrderService) (ctx : Context)
    (params : option OrderListParams) : M Result :=
  count <- new (OCount Count_zero) ;;
  apiError <- new (OAPIError APIError_zero) ;;
  req <- (r <- Sling_Get "count" (sling s) ;; Sling_QueryStruct params r) ;;
  re <- performRequest ctx req (httpClient s) count apiError ;;
  e <- load_APIError apiError ;;
  let '(resp, err) := re in
  ret (count, resp, relevantError err e).

Definition OrderService_Show (s : OrderService) (ctx : Context) (id : Z) : M Result :=
  order <- new (OOrder Order_zero) ;;
  apiError <- new (OAPIError APIError_zero) ;;
  req <- (r <- Sling_New (sling s) ;; Sling_Get (Sprintf_d id) r) ;;
  re <- performRequest ctx req (httpClient s) order apiError ;;
  e <- load_APIError apiError ;;
  let '(resp, err) := re in
  ret (order, resp, relevantError err e).

Definition OrderService_New (s : OrderService) (ctx : Context) (body : option OrderBody)
  : M Result :=
  order <- new (OOrder Order_zero) ;;
  apiError <- new (OAPIError APIError_zero) ;;
  req <- (r <- Sling_New (sling s) ;; r <- Sling_Post "" r ;;
          Sling_BodyJSON (PayloadOrderBody body) r) ;;
  re <- performRequest ctx req (httpClient s) order apiError ;;
  e <- load_APIError apiError ;;
  let '(resp, err) := re in
  ret (order, resp, relevantError err e).

Definition OrderService_Edit (s : OrderService) (ctx : Context) (id : Z)
    (params : option OrderEditParams) : M Result :=
  order <- new (OOrder Order_zero) ;;
  apiError <- new (OAPIError APIError_zero) ;;
  req <- (r <- Sling_New (sling s) ;; r <- Sling_Put (Sprintf_d id) r ;;
          Sling_BodyJSON (PayloadOrderEditParams params) r) ;;
  re <- performRequest ctx req (httpClient s) order apiError ;;
  e <- load_APIError apiError ;;
  let '(resp, err) := re in
  ret (order, resp, relevantError err e).

(** A call to one of the five operations. *)
Inductive Call : Type :=
  | CallList (params : option OrderListParams)
  | CallCount (params : option OrderListParams)
  | CallShow (id : Z)
  | CallNew (body : option OrderBody)
  | CallEdit (id : Z) (params : option OrderEditParams).

Definition call (s : OrderService) (ctx : Context) (c : Call) : M Result :=
  match c with
  | CallList params => OrderService_List s ctx params
  | CallCount params => OrderService_Count s ctx params
  | CallShow id => OrderService_Show s ctx id
  | CallNew body => OrderService_New s ctx body
  | CallEdit id params => OrderService_Edit s ctx id params
  end.

(** The components of what [receive] hands back. *)
Definition rcv_success (x : Object * Object * option Response * option error)
  : Object := fst (fst (fst x)).
Definition rcv_failure (x : Object * Object * option Response * option error)
  : Object := snd (fst (fst x)).
Definition rcv_resp (x : Object * Object * option Response * option error)
  : option Response := snd (fst x).
Definition rcv_err (x : Object * Object * option Response * option error)
  : option error := snd x.

Definition as_APIError (o : Object) : APIError :=
  match o with OAPIError e => e | _ => APIError_zero end.

(** The Sling each operation hands to [performRequest], given the value [v]
    of the service's Sling when the call starts. *)
Definition with_query (v : Sling) (p : option OrderListParams) : Sling :=
  mkSling (method v) (rawURL v) (header v) (queryStructs v ++ [p]) (bodyProvider v).

Definition with_verb (v : Sling) (m path : string) : Sling :=
  mkSling m (ResolveReference (rawURL v) path) (header v) (queryStructs v)
          (bodyProvider v).

Definition with_body (v : Sling) (p : Payload) : Sling :=
  mkSling (method v) (rawURL v)
          (Header_Set "Content-Type" "application/json" (header v))
          (queryStructs v) (Some p).

Definition sent (c : Call) (v : Sling) : Sling :=
  match c with
  | CallList params => with_query v params
  | CallCount params => with_query (with_verb v "GET" "count") params
  | CallShow id => with_verb v "GET" (Sprintf_d id)
  | CallNew body => with_body (with_verb v "POST" "") (PayloadOrderBody body)
  | CallEdit id params =>
      with_body (with_verb v "PUT" (Sprintf_d id)) (PayloadOrderEditParams params)
  end.

(** The zero value of the success payload of each operation. *)
Definition zero_of (c : Call) : Object :=
  match c with
  | CallList _ => OOrders None
  | CallCount _ => OCount Count_zero
  | CallShow _ | CallNew _ | CallEdit _ _ => OOrder Order_zero
  end.

(** What comes back for a call started in [w] with the service's Sling at [v]. *)
Definition answer (s : OrderService) (ctx : Context) (c : Call) (v : Sling)
    (w : World) : Object * Object * option Response * option error :=
  receive (remote w (httpClient s) ctx (wire w) (Sling_Request (sent c v)))
          (zero_of c) (OAPIError APIError_zero).

(** The heap a call leaves behind: the two destinations are appended; the
    request Sling is a third fresh object, except for Count, which builds
    its request in the service's own Sling. *)
Definition heap_after (s : OrderService) (c : Call) (v : Sling)
    (x : Object * Object * option Response * option error) (h : list Object)
  : list Object :=
  match c with
  | CallCount _ =>
      <[sling s:=OSling (sent c v)]> h ++ [rcv_success x; rcv_failure x]
  | _ => h ++ [rcv_success x; rcv_failure x; OSling (sent c v)]
  end.

Definition world_after (s : OrderService) (ctx : Context) (c : Call) (v : Sling)
    (w : World) : World :=
  mkWorld (heap_after s c v (answer s ctx c v w) (heap w))
          (wire w ++ [Sling_Request (sent c v)]) (remote w).

Definition result_of (s : OrderService) (ctx : Context) (c : Call) (v : Sling)
    (w : World) : Result :=
  let x := answer s ctx c v w in
  (length (heap w), rcv_resp x, relevantError (rcv_err x) (as_APIError (rcv_failure x))).


(** The monetary fields of [Order], each with the key under which the API
    sends it. *)
Definition monetary_fields : list (string * (Order -> string)) :=
  [ ("handling_cost_ex_tax", HandlingCostExTax);
    ("handling_cost_inc_tax", HandlingCostIncTax);
    ("handling_cost_tax", HandlingCostTax);
    ("shipping_cost_ex_tax", ShippingCostExTax);
    ("shipping_cost_inc_tax", ShippingCostIncTax);
    ("shipping_cost_tax", ShippingCostTax);
    ("subtotal_ex_tax", SubTotalExTax);
    ("subtotal_inc_tax", SubTotalIncTax);
    ("subtotal_tax", SubTotalTax);
    ("total_ex_tax", TotalExTax);
    ("total_inc_tax", TotalIncTax);
    ("total_tax", TotalTax);
    ("base_shipping_cost", BaseShippingCost);
    ("discount_amount", DiscountAmount);
    ("coupon_discount", CouponDiscount) ].

(** The pairs a list of query pairs holds under a key. *)
Definition pairs_at (key : string) (kvs : list (string * string)) : list string :=
  map snd (List.filter (fun kv => String.eqb (fst kv) key) kvs).

(** The method and the path below [orders/] that the spec gives each
    operation. *)
Definition verb_of (c : Call) : string :=
  match c with
  | CallList _ | CallCount _ | CallShow _ => "GET"
  | CallNew _ => "POST"
  | CallEdit _ _ => "PUT"
  end.

Definition suffix_of (c : Call) : string :=
  match c with
  | CallList _ | CallNew _ => ""
  | CallCount _ => "count"
  | CallShow id | CallEdit id _ => Sprintf_d id
  end.

(** The [string] fields of [Order], each with its tag. *)
Definition Order_string_fields : list (string * (Order -> string)) :=
  [ ("date_created", DateCreated);
    ("date_modified", DateModified);
    ("date_shipped", DateShipped);
    ("status", Status);
    ("handling_cost_ex_tax", HandlingCostExTax);
    ("handling_cost_inc_tax", HandlingCostIncTax);
    ("handling_cost_tax", HandlingCostTax);
    ("shipping_cost_ex_tax", ShippingCostExTax);
    ("shipping_cost_inc_tax", ShippingCostIncTax);
    ("shipping_cost_tax", ShippingCostTax);
    ("subtotal_ex_tax", SubTotalExTax);
    ("subtotal_inc_tax", SubTotalIncTax);
    ("subtotal_tax", SubTotalTax);
    ("total_ex_tax", TotalExTax);
    ("total_inc_tax", TotalIncTax);
    ("total_tax", TotalTax);
    ("base_shipping_cost", BaseShippingCost);
    ("payment_method", PaymentMethod);
    ("payment_status", PaymentStatus);
    ("ip_address", IPAddress);
    ("currency_code", CurrencyCode);
    ("staff_notes", StaffNotes);
    ("customer_message", CustomerMessage);
    ("discount_amount", DiscountAmount);
    ("counpon_discount", CouponDiscount) ].

(** The [int32] fields of [Order], each with its tag. *)
Definition Order_int32_fields : list (string * (Order -> Z)) :=
  [ ("id", ID);
    ("customer_id", CustomerID);
    ("status_id", StatusID);
    ("items_total", ItemsTotal);
    ("currency_id", CurrencyID);
    ("shipping_address_count", ShippingAddressCount) ].

(** The [url:"..."] names of [OrderListParams] and the [json:"..."] names
    of [OrderEditParams]. *)
Definition OrderListParams_tags : list string :=
  [ "page"; "limit"; "sort"; "min_id"; "max_id"; "min_total"; "max_total";
    "customer_id"; "email"; "status_id"; "payment_method" ].


(** The path each operation reaches once the Sling of the service points
    at [orders/count]. *)
Definition suffix_after_Count (c : Call) : string :=
  match c with
  | CallList _ | CallNew _ | CallCount _ => "count"
  | CallShow id | CallEdit id _ => Sprintf_d id
  end.

(** Two objects of the same Go type. *)
Definition same_kind (a b : Object) : bool :=
  match a, b with
  | OSling _, OSling _ | OOrders _, OOrders _ | OCount _, OCount _
  | OOrder _, OOrder _ | OAPIError _, OAPIError _ => true
  | _, _ => false
  end.

Definition is_Count_call (c : Call) : bool :=
  match c with CallCount _ => true | _ => false end.

(** ** A store to run calls in

    One base Sling at location 0, as the client of the package prepares it,
    and nothing on the wire yet. *)
Definition base_sling : Sling :=
  mkSling "GET" (mkURL "https://api.bigcommerce.com" "/stores/abc/v2/")
          [("X-Auth-Token", "secret")] [] None.

Definition offline : Client -> Context -> list Request -> Request -> Outcome :=
  fun _ _ _ _ => Failed "connection refused".

Definition replying (resp : Response)
  : Client -> Context -> list Request -> Request -> Outcome :=
  fun _ _ _ _ => Replied resp.

Definition world0 (r : Client -> Context -> list Request -> Request -> Outcome)
  : World := mkWorld [OSling base_sling] [] r.

(** The service built over the base Sling, then a sequence of calls on it. *)
Fixpoint calls (s : OrderService) (ctx : Context) (cs : list Call)
  : M (list Result) :=
  match cs with
  | [] => ret []
  | c :: cs' =>
      x <- call s ctx c ;;
      xs <- calls s ctx cs' ;;
      ret (x :: xs)
  end.

Definition session (cs : list Call) : M (OrderService * list Result) :=
  s <- newOrderService 0 1 ;;
  xs <- calls s 0 cs ;;
  ret (s, xs).

(** An order as the API sends it, the amounts as decimal strings. *)
Definition order_7 : members :=
  [ ("id", JNumber "7");
    ("total_inc_tax", JString "10.5000");
    ("discount_amount", JString "1.0000");
    ("coupon_discount", JString "5.0000") ].

(** Method and target of a request. *)
Definition request_line (r : Request) : string * string :=
  (req_method r, Request_URI r).

(** * Properties *)

(** ** The codecs on small inputs *)

Example resolve_exact : resolve Order_tags "total_inc_tax" = Some "total_inc_tax".
Proof. reflexivity. Qed.

Example resolve_folded : resolve Order_tags "Total_Inc_Tax" = Some "total_inc_tax".
Proof. reflexivity. Qed.

Example resolve_coupon_discount : resolve Order_tags "coupon_discount" = None.
Proof. reflexivity. Qed.

Example parse_int32_range :
  parse_int32 "2147483647" = Some 2147483647%Z
  /\ parse_int32 "2147483648" = None
  /\ parse_int32 "-12" = Some (-12)%Z
  /\ parse_int32 "1.5" = None.
Proof. repeat split. Qed.

Example resolvePath_orders :
  resolvePath "/stores/abc/v2/" "orders/" = "/stores/abc/v2/orders/"
  /\ resolvePath "/stores/abc/v2/orders/" "count" = "/stores/abc/v2/orders/count"
  /\ resolvePath "/stores/abc/v2/orders/count" "7" = "/stores/abc/v2/orders/7"
  /\ resolvePath "/stores/abc/v2/orders/count" "" = "/stores/abc/v2/orders/count".
Proof. repeat split. Qed.

Example query_of_params :
  Values_Encode
    (addQueryStructs
       [Some (mkOrderListParams 2 50 "date_created:desc" 0 0 F32Zero (F32 "99.5")
                                (Some 0%Z) "a b@example.com" None "")])
  = "customer_id=0&email=a+b%40example.com&limit=50&max_total=99.5&page=2&sort=date_created%3Adesc".
Proof. reflexivity. Qed.

Example body_of_product :
  encode_OrderProduct (mkOrderProduct 0 "Gift wrap" 1 (F32 "2.5") F32Zero)
  = JObject [("name", JString "Gift wrap"); ("quantity", JNumber "1");
             ("price_inc_tax", JNumber "2.5")].
Proof. reflexivity. Qed.

(** ** Running the store operations *)

Section Store.
Variables (h : list Object) (q : list Request).
Variable r : Client -> Context -> list Request -> Request -> Outcome.

Lemma bind_run (A B : Type) (m : M A) (k : A -> M B) (w w' : World) (a : A) :
  m w = Some (a, w') -> bind m k w = k a w'.
Proof. intros E. unfold bind. now rewrite E. Qed.

Lemma load_run (l : loc) (o : Object) :
  h !! l = Some o -> load l (mkWorld h q r) = Some (o, mkWorld h q r).
Proof. intros E. unfold load. simpl. now rewrite E. Qed.

Lemma store_run (l : loc) (o o' : Object) :
  h !! l = Some o ->
  store l o' (mkWorld h q r) = Some (tt, mkWorld (<[l:=o']> h) q r).
Proof. intros E. unfold store. simpl. now rewrite E. Qed.

Lemma load_sling_run (l : loc) (v : Sling) :
  h !! l = Some (OSling v) ->
  load_sling l (mkWorld h q r) = Some (v, mkWorld h q r).
Proof. intros E. unfold load_sling. now rewrite (bind_run _ _ _ _ _ _ _ (load_run _ _ E)). Qed.

Lemma load_APIError_run (l : loc) (e : APIError) :
  h !! l = Some (OAPIError e) ->
  load_APIError l (mkWorld h q r) = Some (e, mkWorld h q r).
Proof. intros E. unfold load_APIError. now rewrite (bind_run _ _ _ _ _ _ _ (load_run _ _ E)). Qed.

Lemma Sling_New_run (l : loc) (v : Sling) :
  h !! l = Some (OSling v) ->
  Sling_New l (mkWorld h q r) = Some (length h, mkWorld (h ++ [OSling v]) q r).
Proof.
  intros E. unfold Sling_New.
  rewrite (bind_run _ _ _ _ _ _ _ (load_sling_run _ _ E)).
  now destruct v.
Qed.

Lemma Sling_Path_run (path : string) (l : loc) (v : Sling) :
  h !! l = Some (OSling v) ->
  Sling_Path path l (mkWorld h q r)
  = Some (l, mkWorld (<[l:=OSling (mkSling (method v)
                                     (ResolveReference (rawURL v) path)
                                     (header v) (queryStructs v)
                                     (bodyProvider v))]> h) q r).
Proof.
  intros E. unfold Sling_Path.
  rewrite (bind_run _ _ _ _ _ _ _ (load_sling_run _ _ E)).
  now rewrite (bind_run _ _ _ _ _ _ _ (store_run _ _ _ E)).
Qed.

Lemma Sling_QueryStruct_run (p : option OrderListParams) (l : loc) (v : Sling) :
  h !! l = Some (OSling v) ->
  Sling_QueryStruct p l (mkWorld h q r)
  = Some (l, mkWorld (<[l:=OSling (mkSling (method v) (rawURL v) (header v)
                                     (queryStructs v ++ [p])
                                     (bodyProvider v))]> h) q r).
Proof.
  intros E. unfold Sling_QueryStruct.
  rewrite (bind_run _ _ _ _ _ _ _ (load_sling_run _ _ E)).
  now rewrite (bind_run _ _ _ _ _ _ _ (store_run _ _ _ E)).
Qed.

Lemma Sling_BodyJSON_run (p : Payload) (l : loc) (v : Sling) :
  h !! l = Some (OSling v) ->
  Sling_BodyJSON p l (mkWorld h q r)
  = Some (l, mkWorld (<[l:=OSling (mkSling (method v) (rawURL v)
                                     (Header_Set "Content-Type" "application/json"
                                        (header v))
                                     (queryStructs v) (Some p))]> h) q r).
Proof.
  intros E. unfold Sling_BodyJSON.
  rewrite (bind_run _ _ _ _ _ _ _ (load_sling_run _ _ E)).
  now rewrite (bind_run _ _ _ _ _ _ _ (store_run _ _ _ E)).
Qed.
End Store.

Lemma Sling_verb_run (h : list Object) (q : list Request)
    (r : Client -> Context -> list Request -> Request -> Outcome)
    (m path : string) (l : loc) (v : Sling) :
  h !! l = Some (OSling v) ->
  (Sling_method m l ;; Sling_Path path l) (mkWorld h q r)
  = Some (l, mkWorld (<[l:=OSling (mkSling m
                                     (ResolveReference (rawURL v) path)
                                     (header v) (queryStructs v)
                                     (bodyProvider v))]> h) q r).
Proof.
  intros E. apply lookup_lt_Some in E as L.
  assert (S1 : Sling_method m l (mkWorld h q r)
               = Some (tt, mkWorld (<[l:=OSling (mkSling m (rawURL v) (header v)
                                         (queryStructs v) (bodyProvider v))]> h) q r)).
  { unfold Sling_method.
    rewrite (bind_run _ _ _ _ _ _ _ (load_sling_run _ _ _ _ _ E)).
    exact (store_run _ _ _ _ _ _ E). }
  rewrite (bind_run _ _ _ _ _ _ _ S1).
  rewrite (Sling_Path_run _ _ _ path l (mkSling m (rawURL v) (header v)
                                          (queryStructs v) (bodyProvider v)))
    by (apply list_lookup_insert_eq; lia).
  simpl. now rewrite list_insert_insert_eq.
Qed.

Lemma new_run (h : list Object) (q : list Request)
    (r : Client -> Context -> list Request -> Request -> Outcome) (o : Object) :
  new o (mkWorld h q r) = Some (length h, mkWorld (h ++ [o]) q r).
Proof. reflexivity. Qed.

(** Locations allocated past a heap [h], and what is stored there. *)
Section Fresh.
Variable h : list Object.
Variables a b c : Object.

Lemma at0 (t : list Object) : (h ++ a :: t) !! length h = Some a.
Proof. now apply list_lookup_middle. Qed.

Lemma at1 (t : list Object) : (h ++ a :: b :: t) !! S (length h) = Some b.
Proof.
  replace (h ++ a :: b :: t) with ((h ++ [a]) ++ b :: t)
    by now rewrite <- app_assoc.
  apply list_lookup_middle. rewrite length_app. simpl. lia.
Qed.

Lemma at2 (t : list Object) :
  (h ++ a :: b :: c :: t) !! S (S (length h)) = Some c.
Proof.
  replace (h ++ a :: b :: c :: t) with ((h ++ [a; b]) ++ c :: t)
    by now rewrite <- app_assoc.
  apply list_lookup_middle. rewrite length_app. simpl. lia.
Qed.

Lemma below (t : list Object) (l : loc) (x : Object) :
  h !! l = Some x -> (h ++ t) !! l = Some x.
Proof. intros E. now apply lookup_app_l_Some. Qed.

Lemma set0 (x : Object) (t : list Object) :
  <[length h:=x]> (h ++ a :: t) = h ++ x :: t.
Proof.
  replace (length h) with (length h + 0) by lia. now rewrite insert_app_r.
Qed.

Lemma set1 (x : Object) (t : list Object) :
  <[S (length h):=x]> (h ++ a :: b :: t) = h ++ a :: x :: t.
Proof.
  replace (S (length h)) with (length h + 1) by lia. now rewrite insert_app_r.
Qed.

Lemma set2 (x : Object) (t : list Object) :
  <[S (S (length h)):=x]> (h ++ a :: b :: c :: t) = h ++ a :: b :: x :: t.
Proof.
  replace (S (S (length h))) with (length h + 2) by lia.
  now rewrite insert_app_r.
Qed.

Lemma set_below (x y : Object) (t : list Object) (l : loc) :
  h !! l = Some y -> <[l:=x]> (h ++ t) = <[l:=x]> h ++ t.
Proof. intros E. apply insert_app_l. eapply lookup_lt_Some, E. Qed.
End Fresh.

Lemma receive_failure_kind (out : Outcome) (s : Object) (e : APIError) :
  rcv_failure (receive out s (OAPIError e))
  = OAPIError (as_APIError (rcv_failure (receive out s (OAPIError e)))).
Proof.
  destruct out as [reason|resp]; simpl; [reflexivity|].
  destruct (Body resp) as [j|]; [|reflexivity].
  destruct (is_2xx (StatusCode resp)).
  - now destruct (decode_into j s).
  - unfold decode_into. now destruct (decode_APIError j e).
Qed.

Lemma performRequest_run (h : list Object) (q : list Request)
    (r : Client -> Context -> list Request -> Request -> Outcome)
    (ctx : Context) (client : Client) (sl sv fv : loc) (v : Sling)
    (a b : Object) :
  h !! sl = Some (OSling v) -> h !! sv = Some a -> h !! fv = Some b ->
  let x := receive (r client ctx q (Sling_Request v)) a b in
  performRequest ctx sl client sv fv (mkWorld h q r)
  = Some ((rcv_resp x, rcv_err x),
          mkWorld (<[fv:=rcv_failure x]> (<[sv:=rcv_success x]> h))
                  (q ++ [Sling_Request v]) r).
Proof.
  intros Es Ea Eb x. unfold performRequest.
  rewrite (bind_run _ _ _ _ _ _ _ (load_sling_run _ _ _ _ _ Es)).
  unfold Do at 1. unfold bind at 1. simpl.
  rewrite (bind_run _ _ _ _ _ _ _ (load_run _ _ _ _ _ Ea)).
  rewrite (bind_run _ _ _ _ _ _ _ (load_run _ _ _ _ _ Eb)).
  fold x. destruct x as [[[s' f'] resp] err]. simpl.
  rewrite (bind_run _ _ _ _ _ _ _ (store_run _ _ _ _ _ s' Ea)).
  assert (Eb' : <[sv:=s']> h !! fv = Some (if decide (sv = fv) then s' else b)).
  { destruct (decide (sv = fv)) as [->|N].
    - apply list_lookup_insert_eq. eapply lookup_lt_Some, Eb.
    - now rewrite list_lookup_insert_ne. }
  now rewrite (bind_run _ _ _ _ _ _ _ (store_run _ _ _ _ _ f' Eb')).
Qed.

(** One step of a run: the first computation of a [bind], justified by
    [tac], then the rest. *)
Ltac step tac := erewrite bind_run; [ | tac ].

(** The end of every operation: the exchange, with the request Sling where
    [sl] finds it, then the read of the API error. *)
Ltac exchange sl :=
  step ltac:(apply performRequest_run; [sl | apply at0 | apply at1]);
  simpl; rewrite set0, set1;
  step ltac:(apply load_APIError_run; rewrite at1;
             apply f_equal, receive_failure_kind);
  reflexivity.

(** The copy of the service's Sling that [New] allocates past the two
    destinations. *)
Ltac copy_sling E2 :=
  rewrite (bind_run _ _ _ _ _ _ _ (Sling_New_run _ _ _ _ _ E2));
  rewrite length_app; simpl;
  match goal with
  | |- context [length ?h + 2] =>
      replace (length h + 2) with (S (S (length h))) by lia
  end;
  rewrite <- app_assoc; simpl.

(** Every call on a service whose Sling is live returns, with the result and
    the world given above. *)
Lemma call_run (s : OrderService) (ctx : Context) (c : Call) (v : Sling)
    (w : World) :
  heap w !! sling s = Some (OSling v) ->
  call s ctx c w = Some (result_of s ctx c v w, world_after s ctx c v w).
Proof.
  destruct w as [h q r]. simpl. intros E.
  unfold result_of, world_after, answer. simpl.
  assert (E2 : (h ++ [zero_of c; OAPIError APIError_zero]) !! sling s
               = Some (OSling v)) by now apply below.
  destruct c as [params|params|id|body|id params]; simpl;
    [ unfold OrderService_List | unfold OrderService_Count
    | unfold OrderService_Show | unfold OrderService_New
    | unfold OrderService_Edit ];
    rewrite (bind_run _ _ _ _ _ _ _ (new_run _ _ _ _));
    rewrite (bind_run _ _ _ _ _ _ _ (new_run _ _ _ _));
    rewrite <- app_assoc; simpl; rewrite length_app; simpl;
    replace (length h + 1) with (S (length h)) by lia.
  - (* List *)
    erewrite (bind_run _ _ (bind _ _)); cycle 1.
    { copy_sling E2. apply Sling_QueryStruct_run, at2. }
    rewrite set2. exchange ltac:(apply at2).
  - (* Count: the request is built in the service's own Sling *)
    erewrite (bind_run _ _ (bind _ _)); cycle 1.
    { unfold Sling_Get.
      rewrite (bind_run _ _ _ _ _ _ _ (Sling_verb_run _ _ _ "GET" "count" _ _ E2)).
      erewrite Sling_QueryStruct_run
        by (apply list_lookup_insert_eq; eapply lookup_lt_Some, E2).
      rewrite list_insert_insert_eq. reflexivity. }
    simpl. rewrite (set_below _ _ _ _ _ E).
    set (h' := <[sling s:=_]> h).
    assert (Lh : length h = length h') by (subst h'; now rewrite length_insert).
    rewrite Lh.
    exchange ltac:(apply below; subst h'; apply list_lookup_insert_eq;
                   eapply lookup_lt_Some, E).
  - (* Show *)
    erewrite (bind_run _ _ (bind _ _)); cycle 1.
    { copy_sling E2. apply Sling_verb_run, at2. }
    rewrite set2. exchange ltac:(apply at2).
  - (* New *)
    erewrite (bind_run _ _ (bind _ _)); cycle 1.
    { copy_sling E2. erewrite bind_run by (apply Sling_verb_run, at2).
      rewrite set2. apply Sling_BodyJSON_run, at2. }
    rewrite set2. exchange ltac:(apply at2).
  - (* Edit *)
    erewrite (bind_run _ _ (bind _ _)); cycle 1.
    { copy_sling E2. erewrite bind_run by (apply Sling_verb_run, at2).
      rewrite set2. apply Sling_BodyJSON_run, at2. }
    rewrite set2. exchange ltac:(apply at2).
Qed.

(** ** What a call does to the store *)

Lemma decode_into_kind (j : JSON) (o : Object) :
  same_kind (fst (decode_into j o)) o = true.
Proof.
  destruct o as [v|v|v|v|v]; simpl; try reflexivity.
  - now destruct (decode_Orders j v).
  - now destruct (decode_Count j v).
  - now destruct (decode_Order j v).
  - now destruct (decode_APIError j v).
Qed.

Lemma same_kind_refl (o : Object) : same_kind o o = true.
Proof. now destruct o. Qed.

Lemma receive_success_kind (out : Outcome) (a b : Object) :
  same_kind (rcv_success (receive out a b)) a = true.
Proof.
  destruct out as [reason|resp]; simpl; [apply same_kind_refl|].
  destruct (Body resp) as [j|]; [|apply same_kind_refl].
  destruct (is_2xx (StatusCode resp)).
  - pose proof (decode_into_kind j a) as K.
    destruct (decode_into j a). exact K.
  - destruct (decode_into j b). apply same_kind_refl.
Qed.

(** List, Show, New and Edit leave the service's Sling as it was. *)
Lemma other_calls_keep_service_sling (s : OrderService) (ctx : Context)
    (c : Call) (v : Sling) (w : World) :
  is_Count_call c = false ->
  heap w !! sling s = Some (OSling v) ->
  heap (world_after s ctx c v w) !! sling s = Some (OSling v).
Proof.
  intros NC E. unfold world_after, heap_after. simpl.
  destruct c; try discriminate NC; now apply below.
Qed.

(** Count leaves its own request in the service's Sling. *)
Lemma Count_writes_service_sling (s : OrderService) (ctx : Context)
    (params : option OrderListParams) (v : Sling) (w : World) :
  heap w !! sling s = Some (OSling v) ->
  heap (world_after s ctx (CallCount params) v w) !! sling s
  = Some (OSling (with_query (with_verb v "GET" "count") params))
  /\ with_query (with_verb v "GET" "count") params <> v.
Proof.
  intros E. split.
  - unfold world_after, heap_after. simpl. apply below.
    apply list_lookup_insert_eq. eapply lookup_lt_Some, E.
  - intros Q. apply (f_equal queryStructs) in Q. simpl in Q.
    apply (f_equal (@length _)) in Q. rewrite length_app in Q. simpl in Q. lia.
Qed.

(** C1 (code bug, evaluated): on the service built over the base Sling, a
    Count call changes the Sling the service holds: it now carries the
    method, the path [orders/count] and the query parameters of that call.
    A List call made afterwards goes to [orders/count] as well.  The state
    of the service is not the same after the call as before it. *)
Theorem Count_changes_service_state :
  exists (s : OrderService) (w1 w2 w3 : World) (r1 r2 : Result),
    newOrderService 0 1 (world0 offline) = Some (s, w1)
    /\ heap w1 !! sling s
       = Some (OSling (mkSling "GET"
                         (mkURL "https://api.bigcommerce.com" "/stores/abc/v2/orders/")
                         [("X-Auth-Token", "secret")] [] None))
    /\ OrderService_Count s 0 (Some OrderListParams_zero) w1 = Some (r1, w2)
    /\ heap w2 !! sling s
       = Some (OSling (mkSling "GET"
                         (mkURL "https://api.bigcommerce.com"
                                "/stores/abc/v2/orders/count")
                         [("X-Auth-Token", "secret")]
                         [Some OrderListParams_zero] None))
    /\ heap w2 !! sling s <> heap w1 !! sling s
    /\ OrderService_List s 0 (Some OrderListParams_zero) w2 = Some (r2, w3)
    /\ map request_line (wire w3)
       = [ ("GET", "https://api.bigcommerce.com/stores/abc/v2/orders/count");
           ("GET", "https://api.bigcommerce.com/stores/abc/v2/orders/count") ].
Proof.
  do 6 eexists.
  split; [vm_compute; reflexivity|].
  split; [vm_compute; reflexivity|].
  split; [vm_compute; reflexivity|].
  split; [vm_compute; reflexivity|].
  split; [vm_compute; discriminate|].
  split; [vm_compute; reflexivity|].
  vm_compute; reflexivity.
Qed.

(** C9: every call on a live service returns, and the payload pointer it
    returns is a location that was not allocated before the call and holds,
    after it, an object of the operation's payload type (Orders for List,
    Count for Count, Order for Show, New and Edit), whatever the error. *)
Theorem payload_pointer_is_fresh (s : OrderService) (ctx : Context) (c : Call)
    (v : Sling) (w : World) :
  heap w !! sling s = Some (OSling v) ->
  exists (p : loc) (resp : option Response) (err : option error) (w' : World)
         (o : Object),
    call s ctx c w = Some ((p, resp, err), w')
    /\ heap w !! p = None
    /\ heap w' !! p = Some o
    /\ same_kind o (zero_of c) = true.
Proof.
  intros E. rewrite (call_run s ctx c v w E).
  unfold result_of, world_after.
  exists (length (heap w)), (rcv_resp (answer s ctx c v w)),
    (relevantError (rcv_err (answer s ctx c v w))
                   (as_APIError (rcv_failure (answer s ctx c v w)))),
    (mkWorld (heap_after s c v (answer s ctx c v w) (heap w))
             (wire w ++ [Sling_Request (sent c v)]) (remote w)),
    (rcv_success (answer s ctx c v w)).
  split; [reflexivity|]. split; [now apply lookup_ge_None|].
  split; [|apply receive_success_kind].
  simpl. unfold heap_after.
  destruct c; try apply at0.
  rewrite <- (length_insert (heap w) (sling s)
                (OSling (sent (CallCount params) v))).
  apply at0.
Qed.

Lemma payload_pointer_is_fresh_witness :
  exists (p : loc) (resp : option Response) (err : option error) (w' : World)
         (o : Object),
    call (mkOrderService 0 1) 0 (CallShow 7) (world0 offline)
    = Some ((p, resp, err), w')
    /\ heap (world0 offline) !! p = None
    /\ heap w' !! p = Some o
    /\ same_kind o (zero_of (CallShow 7)) = true.
Proof.
  apply (payload_pointer_is_fresh (mkOrderService 0 1) 0 (CallShow 7)
           base_sling (world0 offline)).
  reflexivity.
Defined.

(** ** The error a call returns *)

Lemma receive_err_is_transport (out : Outcome) (a b : Object) :
  rcv_err (receive out a b) = None
  \/ exists reason, rcv_err (receive out a b) = Some (TransportError reason).
Proof.
  destruct out as [reason|resp]; simpl; [right; now exists reason|].
  destruct (Body resp) as [j|]; [|right; now eexists].
  destruct (is_2xx (StatusCode resp)).
  - destruct (decode_into j a) as [o [|]]; [now left|right; now eexists].
  - destruct (decode_into j b) as [o [|]]; [now left|right; now eexists].
Qed.

(** C3: every call on a live service returns the error that [relevantError]
    selects from the transport error handed back by [performRequest] and the
    API-error payload left in the error destination (the location next to
    the payload).  The selection has three exclusive outcomes: the transport
    error when there is one; else the API error when the payload is not
    empty; else nil. *)
Theorem error_is_one_selection (s : OrderService) (ctx : Context) (c : Call)
    (v : Sling) (w : World) :
  heap w !! sling s = Some (OSling v) ->
  exists (p : loc) (resp : option Response) (err : option error) (w' : World)
         (aerr : APIError),
    let terr := rcv_err (answer s ctx c v w) in
    call s ctx c w = Some ((p, resp, err), w')
    /\ heap w' !! S p = Some (OAPIError aerr)
    /\ err = relevantError terr aerr
    /\ ((exists reason, terr = Some (TransportError reason)
                        /\ err = Some (TransportError reason))
        \/ (terr = None /\ APIError_Empty aerr = false /\ err = Some (APIErr aerr))
        \/ (terr = None /\ APIError_Empty aerr = true /\ err = None)).
Proof.
  intros E. rewrite (call_run s ctx c v w E).
  unfold result_of, world_after.
  set (x := answer s ctx c v w).
  exists (length (heap w)), (rcv_resp x),
    (relevantError (rcv_err x) (as_APIError (rcv_failure x))),
    (mkWorld (heap_after s c v x (heap w))
             (wire w ++ [Sling_Request (sent c v)]) (remote w)),
    (as_APIError (rcv_failure x)).
  simpl. split; [reflexivity|]. split.
  - assert (K : rcv_failure x = OAPIError (as_APIError (rcv_failure x)))
      by apply receive_failure_kind.
    rewrite <- K. unfold heap_after.
    destruct c; try apply at1.
    rewrite <- (length_insert (heap w) (sling s)
                  (OSling (sent (CallCount params) v))).
    apply at1.
  - split; [reflexivity|].
    assert (D : rcv_err x = None
                \/ exists reason, rcv_err x = Some (TransportError reason))
      by apply receive_err_is_transport.
    destruct D as [N|[reason T]].
    + rewrite N. simpl.
      destruct (APIError_Empty (as_APIError (rcv_failure x))); auto.
    + rewrite T. left. now exists reason.
Qed.

Lemma error_is_one_selection_witness :
  exists (p : loc) (resp : option Response) (err : option error) (w' : World)
         (aerr : APIError),
    let terr := rcv_err (answer (mkOrderService 0 1) 0 (CallList None)
                                base_sling (world0 offline)) in
    call (mkOrderService 0 1) 0 (CallList None) (world0 offline)
    = Some ((p, resp, err), w')
    /\ heap w' !! S p = Some (OAPIError aerr)
    /\ err = relevantError terr aerr
    /\ ((exists reason, terr = Some (TransportError reason)
                        /\ err = Some (TransportError reason))
        \/ (terr = None /\ APIError_Empty aerr = false /\ err = Some (APIErr aerr))
        \/ (terr = None /\ APIError_Empty aerr = true /\ err = None)).
Proof.
  apply (error_is_one_selection (mkOrderService 0 1) 0 (CallList None)
           base_sling (world0 offline)).
  reflexivity.
Defined.

(** C5: when the remote end answers the request of a call with a status
    outside 200..299 and a structured error body (a JSON value other than
    null), and no transport error occurs, the call returns that body as the
    API error, together with the response, and the success payload it
    returns is still the zero value of its type. *)
Theorem api_error_is_returned (s : OrderService) (ctx : Context) (c : Call)
    (v : Sling) (w : World) (resp : Response) (j : JSON) :
  heap w !! sling s = Some (OSling v) ->
  remote w (httpClient s) ctx (wire w) (Sling_Request (sent c v)) = Replied resp ->
  is_2xx (StatusCode resp) = false ->
  Body resp = Some j ->
  is_JNull j = false ->
  exists (p : loc) (w' : World),
    call s ctx c w = Some ((p, Some resp, Some (APIErr (mkAPIError j))), w')
    /\ wire w' = wire w ++ [Sling_Request (sent c v)]
    /\ heap w' !! p = Some (zero_of c).
Proof.
  intros E R S2 B N. rewrite (call_run s ctx c v w E).
  assert (X : answer s ctx c v w
              = (zero_of c, OAPIError (mkAPIError j), Some resp, None)).
  { unfold answer. rewrite R. simpl. rewrite B, S2. simpl.
    destruct j; try discriminate N; reflexivity. }
  unfold result_of, world_after. rewrite X. simpl.
  unfold APIError_Empty. simpl. rewrite N.
  eexists _, _. split; [reflexivity|]. split; [reflexivity|].
  simpl. unfold heap_after, rcv_success. simpl.
  destruct c; try apply at0.
  rewrite <- (length_insert (heap w) (sling s)
                (OSling (sent (CallCount params) v))).
  apply at0.
Qed.

Lemma api_error_is_returned_witness :
  exists (p : loc) (w' : World),
    call (mkOrderService 0 1) 0 (CallShow 7)
         (world0 (replying (mkResponse 404 (Some (JArray [JObject [("status", JNumber "404"); ("message", JString "The requested resource was not found.")]])))))
    = Some ((p, Some (mkResponse 404 (Some (JArray [JObject [("status", JNumber "404"); ("message", JString "The requested resource was not found.")]]))),
             Some (APIErr (mkAPIError (JArray [JObject [("status", JNumber "404"); ("message", JString "The requested resource was not found.")]])))), w')
    /\ wire w' = [Sling_Request (sent (CallShow 7) base_sling)]
    /\ heap w' !! p = Some (OOrder Order_zero).
Proof.
  apply (api_error_is_returned (mkOrderService 0 1) 0 (CallShow 7) base_sling
           (world0 (replying (mkResponse 404 (Some (JArray [JObject [("status", JNumber "404"); ("message", JString "The requested resource was not found.")]])))))
           (mkResponse 404 (Some (JArray [JObject [("status", JNumber "404"); ("message", JString "The requested resource was not found.")]])))
           (JArray [JObject [("status", JNumber "404"); ("message", JString "The requested resource was not found.")]]));
    reflexivity.
Defined.

(** ** The JSON bodies of New and Edit *)

Lemma has_key_app (k : string) (m1 m2 : members) :
  has_key k (m1 ++ m2) = has_key k m1 || has_key k m2.
Proof. apply existsb_app. Qed.

Lemma has_key_omitempty (k key : string) (empty : bool) (v : JSON) :
  has_key k (omitempty empty key v) = negb empty && String.eqb key k.
Proof. destruct empty; simpl; [reflexivity|]. now rewrite orb_false_r. Qed.

Lemma values_of_app (k : string) (m1 m2 : members) :
  values_of k (m1 ++ m2) = values_of k m1 ++ values_of k m2.
Proof. unfold values_of. now rewrite List.filter_app, map_app. Qed.

Lemma values_of_omitempty_other (k key : string) (empty : bool) (v : JSON) :
  String.eqb key k = false -> values_of k (omitempty empty key v) = [].
Proof. intros N. destruct empty; [reflexivity|]. unfold values_of. simpl. now rewrite N. Qed.

(** Which keys a concatenation of members carries. *)
Ltac keys :=
  repeat (progress (rewrite ?values_of_app, ?has_key_app, ?has_key_omitempty;
                    rewrite ?values_of_omitempty_other by reflexivity; simpl;
                    rewrite ?andb_false_r, ?andb_true_r, ?orb_false_r,
                      ?orb_true_r)).

(** The body Edit puts on the wire is the encoding of its parameters. *)
Lemma Edit_body (id : Z) (p : OrderEditParams) (v : Sling) :
  req_body (Sling_Request (sent (CallEdit id (Some p)) v))
  = Some (JObject (OrderEditParams_members p)).
Proof. reflexivity. Qed.

Lemma New_body (b : OrderBody) (v : Sling) :
  req_body (Sling_Request (sent (CallNew (Some b)) v))
  = Some (JObject (OrderBody_members b)).
Proof. reflexivity. Qed.

(** The pointer and string fields of [OrderEditParams] are left out of the
    body when unset, and the billing address never is. *)
Lemma OrderEditParams_members_keys (p : OrderEditParams) :
  has_key "customer_id" (OrderEditParams_members p) = negb (empty_ptr (ep_CustomerID p))
  /\ has_key "status_id" (OrderEditParams_members p) = negb (empty_ptr (ep_StatusID p))
  /\ has_key "ip_address" (OrderEditParams_members p)
     = negb (empty_string (ep_IPAddress p))
  /\ has_key "staff_notes" (OrderEditParams_members p)
     = negb (empty_string (ep_StaffNotes p))
  /\ has_key "customer_message" (OrderEditParams_members p)
     = negb (empty_string (ep_CustomerMessage p))
  /\ has_key "billing_address" (OrderEditParams_members p) = true.
Proof.
  unfold OrderEditParams_members.
  repeat split; keys; reflexivity.
Qed.

(** C6 (code bug, evaluated): Edit called with only the status set sends a
    body that also carries the billing address, left at its zero value by
    the caller: [omitempty] does not apply to a struct. *)
Theorem Edit_sends_unset_billing_address :
  exists (x : OrderService * list Result) (w : World),
    session [CallEdit 12 (Some (mkOrderEditParams None (Some 2%Z) "" "" ""
                                  AddressEntity_zero))] (world0 offline)
    = Some (x, w)
    /\ map request_line (wire w)
       = [("PUT", "https://api.bigcommerce.com/stores/abc/v2/orders/12")]
    /\ map req_body (wire w)
       = [Some (JObject [("status_id", JNumber "2");
                         ("billing_address", JObject [])])].
Proof. do 2 eexists. repeat split; vm_compute; reflexivity. Qed.

(** C7, as stated, fails: New called with a body whose CustomerID and
    StatusID are nil sends [customer_id] and [status_id], as [null]. *)
Lemma New_sends_nil_customer_id :
  exists (x : OrderService * list Result) (w : World),
    ob_CustomerID OrderBody_zero = None
    /\ session [CallNew (Some OrderBody_zero)] (world0 offline) = Some (x, w)
    /\ map req_body (wire w)
       = [Some (JObject [("external_source", JString "");
                         ("customer_id", JNull);
                         ("status_id", JNull);
                         ("billing_address", JObject []);
                         ("products", JNull);
                         ("customer_message", JString "");
                         ("staff_notes", JString "")])]
    /\ (forall m, In (Some (JObject m)) (map req_body (wire w)) ->
                  has_key "customer_id" m = true /\ has_key "status_id" m = true).
Proof.
  do 2 eexists. split; [reflexivity|]. split; [vm_compute; reflexivity|].
  split; [vm_compute; reflexivity|].
  intros m [Q|[]]. vm_compute in Q. injection Q as <-. now vm_compute.
Qed.

Lemma encode_ptr_null (p : option Z) : encode_ptr p = JNull <-> p = None.
Proof. destruct p; simpl; split; intros Q; try reflexivity; discriminate. Qed.

(** C7 (amended): New on a live service sends one request whose body is a
    JSON object that always carries [customer_id] and [status_id]: as
    [null] exactly when the pointer is nil, as the number otherwise, so
    unset differs on the wire from an explicit zero.  The fields tagged
    [omitempty] (the four shipping and handling costs and the shipping
    addresses) are left out when at their zero value; the other fields are
    always present. *)
Theorem New_body_fields (s : OrderService) (ctx : Context) (b : OrderBody)
    (v : Sling) (w : World) :
  heap w !! sling s = Some (OSling v) ->
  exists (x : Result) (w' : World) (req : Request) (m : members),
    OrderService_New s ctx (Some b) w = Some (x, w')
    /\ wire w' = wire w ++ [req]
    /\ req_body req = Some (JObject m)
    /\ values_of "customer_id" m = [encode_ptr (ob_CustomerID b)]
    /\ values_of "status_id" m = [encode_ptr (ob_StatusID b)]
    /\ (encode_ptr (ob_CustomerID b) = JNull <-> ob_CustomerID b = None)
    /\ (encode_ptr (ob_StatusID b) = JNull <-> ob_StatusID b = None)
    /\ has_key "shipping_cost_inc_tax" m
       = negb (float32_is_zero (ob_ShippingCostIncTax b))
    /\ has_key "shipping_cost_ex_tax" m
       = negb (float32_is_zero (ob_ShippingCostExTax b))
    /\ has_key "handling_cost_inc_tax" m
       = negb (float32_is_zero (ob_HandlingCostIncTax b))
    /\ has_key "handling_cost_ex_tax" m
       = negb (float32_is_zero (ob_HandlingCostExTax b))
    /\ has_key "shipping_addresses" m
       = negb (empty_slice (ob_ShippingAddresses b))
    /\ forallb (fun k => has_key k m)
         ["external_source"; "billing_address"; "products"; "customer_message";
          "staff_notes"] = true.
Proof.
  intros E.
  pose proof (call_run s ctx (CallNew (Some b)) v w E) as R. simpl in R.
  eexists _, _, _, (OrderBody_members b).
  split; [exact R|]. split; [reflexivity|]. split; [reflexivity|].
  unfold OrderBody_members.
  repeat match goal with |- _ /\ _ => split end;
    try apply encode_ptr_null; keys; reflexivity.
Qed.

Lemma New_body_fields_witness :
  exists (x : Result) (w' : World) (req : Request) (m : members),
    OrderService_New (mkOrderService 0 1) 0 (Some OrderBody_zero) (world0 offline)
    = Some (x, w')
    /\ wire w' = wire (world0 offline) ++ [req]
    /\ req_body req = Some (JObject m)
    /\ values_of "customer_id" m = [encode_ptr (ob_CustomerID OrderBody_zero)]
    /\ values_of "status_id" m = [encode_ptr (ob_StatusID OrderBody_zero)]
    /\ (encode_ptr (ob_CustomerID OrderBody_zero) = JNull
        <-> ob_CustomerID OrderBody_zero = None)
    /\ (encode_ptr (ob_StatusID OrderBody_zero) = JNull
        <-> ob_StatusID OrderBody_zero = None)
    /\ has_key "shipping_cost_inc_tax" m
       = negb (float32_is_zero (ob_ShippingCostIncTax OrderBody_zero))
    /\ has_key "shipping_cost_ex_tax" m
       = negb (float32_is_zero (ob_ShippingCostExTax OrderBody_zero))
    /\ has_key "handling_cost_inc_tax" m
       = negb (float32_is_zero (ob_HandlingCostIncTax OrderBody_zero))
    /\ has_key "handling_cost_ex_tax" m
       = negb (float32_is_zero (ob_HandlingCostExTax OrderBody_zero))
    /\ has_key "shipping_addresses" m
       = negb (empty_slice (ob_ShippingAddresses OrderBody_zero))
    /\ forallb (fun k => has_key k m)
         ["external_source"; "billing_address"; "products"; "customer_message";
          "staff_notes"] = true.
Proof.
  apply (New_body_fields (mkOrderService 0 1) 0 OrderBody_zero base_sling
           (world0 offline)).
  reflexivity.
Defined.

(** ** Decoding an Order *)

Lemma routed_app (tags : list string) (t : string) (m1 m2 : members) :
  routed tags t (m1 ++ m2) = routed tags t m1 ++ routed tags t m2.
Proof. unfold routed. now rewrite List.filter_app, map_app. Qed.

Lemma routed_cons_hit (tags : list string) (t : string) (v : JSON) (m : members) :
  resolve tags t = Some t -> routed tags t ((t, v) :: m) = v :: routed tags t m.
Proof. intros R. unfold routed. simpl. rewrite R. now rewrite String.eqb_refl. Qed.

Lemma into_string_last (old s : string) (vs : list JSON) :
  into_string old (vs ++ [JString s]) = s.
Proof. unfold into_string. now rewrite fold_left_app. Qed.

(** Every monetary field other than the coupon discount holds, after
    decoding, the very string the object carries under the field's key (the
    last one, should the key be repeated). *)
Lemma monetary_fields_verbatim (k : string) (f : Order -> string)
    (m1 m2 : members) (s : string) (o : Order) :
  In (k, f) monetary_fields ->
  k <> "coupon_discount" ->
  routed Order_tags k m2 = [] ->
  f (decode_Order_members (m1 ++ (k, JString s) :: m2) o) = s.
Proof.
  intros I N R. unfold monetary_fields in I. simpl in I.
  repeat (destruct I as [I|I];
          [injection I as <- <-; simpl;
           rewrite routed_app, routed_cons_hit, R by reflexivity;
           apply into_string_last|]);
    try contradiction.
  destruct I as [I|[]]. congruence.
Qed.

(** C8 (code bug, evaluated): Show receives an order whose amounts are
    decimal strings.  The total and the discount amount are stored as sent;
    the coupon discount, sent under [coupon_discount], is not stored at all:
    the field is tagged [counpon_discount]. *)
Theorem coupon_discount_is_dropped :
  exists (p : loc) (resp : option Response) (w' : World) (o : Order),
    In ("coupon_discount", CouponDiscount) monetary_fields
    /\ call (mkOrderService 0 1) 0 (CallShow 7)
            (world0 (replying (mkResponse 200 (Some (JObject order_7)))))
       = Some ((p, resp, None), w')
    /\ heap w' !! p = Some (OOrder o)
    /\ ID o = 7%Z
    /\ TotalIncTax o = "10.5000"
    /\ DiscountAmount o = "1.0000"
    /\ values_of "coupon_discount" order_7 = [JString "5.0000"]
    /\ CouponDiscount o = "".
Proof.
  do 4 eexists. split; [simpl; tauto|].
  split; [vm_compute; reflexivity|].
  split; [vm_compute; reflexivity|].
  repeat split.
Qed.

(** C10, as stated, fails on a response that carries both spellings: the
    value under [counpon_discount] is stored. *)
Lemma misspelled_key_is_decoded :
  has_key "coupon_discount"
    [("coupon_discount", JString "5.0000"); ("counpon_discount", JString "7.0000")]
  = true
  /\ CouponDiscount
       (fst (decode_Order
               (JObject [("coupon_discount", JString "5.0000");
                         ("counpon_discount", JString "7.0000")]) Order_zero))
     = "7.0000"
  /\ CouponDiscount
       (fst (decode_Order
               (JObject [("coupon_discount", JString "5.0000");
                         ("counpon_discount", JString "7.0000")]) Order_zero))
     <> "".
Proof. repeat split. vm_compute. discriminate. Qed.

(** C10 (amended): CouponDiscount is populated from the key
    [counpon_discount]; for every response object that carries the key
    [coupon_discount] and no member that the decoder matches to
    [counpon_discount], decoding into a fresh Order leaves CouponDiscount
    empty, and adding a [counpon_discount] member populates it. *)
Theorem CouponDiscount_key (m : members) :
  has_key "coupon_discount" m = true ->
  routed Order_tags "counpon_discount" m = [] ->
  CouponDiscount (fst (decode_Order (JObject m) Order_zero)) = ""
  /\ forall s : string,
       CouponDiscount
         (fst (decode_Order (JObject (m ++ [("counpon_discount", JString s)]))
                            Order_zero)) = s.
Proof.
  intros _ R. simpl. split.
  - now rewrite R.
  - intros s. rewrite routed_app, R. reflexivity.
Qed.

Lemma CouponDiscount_key_witness :
  CouponDiscount (fst (decode_Order (JObject order_7) Order_zero)) = ""
  /\ forall s : string,
       CouponDiscount
         (fst (decode_Order
                 (JObject (order_7 ++ [("counpon_discount", JString s)]))
                 Order_zero)) = s.
Proof. apply (CouponDiscount_key order_7); reflexivity. Defined.

(** ** The query string of List and Count *)

Lemma Values_at_Add (k key value : string) (vs : Values) :
  Values_at k (Values_Add key value vs)
  = Values_at k vs ++ (if String.eqb key k then [value] else []).
Proof.
  unfold Values_at.
  induction vs as [|[k0 l] r IH]; simpl.
  - destruct (String.eqb key k); reflexivity.
  - destruct (String.eqb_spec k0 key) as [->|N]; simpl.
    + destruct (String.eqb key k); [reflexivity|]. now rewrite app_nil_r.
    + destruct (String.eqb_spec k0 k) as [->|N']; simpl; [|exact IH].
      destruct (String.eqb_spec key k) as [->|_]; [congruence|].
      now rewrite app_nil_r.
Qed.

Lemma Values_Has_Add (k key value : string) (vs : Values) :
  Values_Has k (Values_Add key value vs) = Values_Has k vs || String.eqb key k.
Proof.
  unfold Values_Has.
  induction vs as [|[k0 l] r IH]; simpl.
  - now rewrite orb_false_r.
  - destruct (String.eqb_spec k0 key) as [->|N]; simpl.
    + destruct (String.eqb key k); simpl; [reflexivity|]. now rewrite orb_false_r.
    + rewrite IH. now rewrite orb_assoc.
Qed.

Lemma Values_at_add_pairs (k : string) (kvs : list (string * string))
    (vs : Values) :
  Values_at k (add_pairs vs kvs) = Values_at k vs ++ pairs_at k kvs.
Proof.
  unfold add_pairs, pairs_at. revert vs.
  induction kvs as [|[key value] r IH]; intros vs; simpl.
  - now rewrite app_nil_r.
  - rewrite IH, Values_at_Add, <- app_assoc.
    now destruct (String.eqb key k).
Qed.

Lemma Values_Has_add_pairs (k : string) (kvs : list (string * string))
    (vs : Values) :
  Values_Has k (add_pairs vs kvs)
  = Values_Has k vs || negb (Nat.eqb (length (pairs_at k kvs)) 0).
Proof.
  unfold add_pairs, pairs_at. revert vs.
  induction kvs as [|[key value] r IH]; intros vs; simpl.
  - now rewrite orb_false_r.
  - rewrite IH, Values_Has_Add, <- orb_assoc.
    destruct (String.eqb key k); simpl; [now rewrite !orb_true_r|reflexivity].
Qed.

Lemma pairs_at_app (k : string) (a b : list (string * string)) :
  pairs_at k (a ++ b) = pairs_at k a ++ pairs_at k b.
Proof. unfold pairs_at. now rewrite List.filter_app, map_app. Qed.

Lemma pairs_at_query_field (k key value : string) (empty : bool) :
  String.eqb key k = false -> pairs_at k (query_field empty key value) = [].
Proof.
  intros N. destruct empty; [reflexivity|]. unfold pairs_at. simpl. now rewrite N.
Qed.

Lemma pairs_at_query_ptr (k key : string) (p : option Z) :
  pairs_at k (query_ptr key p)
  = if String.eqb key k then match p with Some n => [Sprintf_d n] | None => [] end
    else [].
Proof.
  destruct p as [n|]; unfold pairs_at; simpl;
    now destruct (String.eqb key k).
Qed.

(** The pairs that [OrderListParams] emits under [customer_id] and
    [status_id]: none for a nil pointer, the decimal value otherwise. *)
Lemma query_Values_customer_id (p : OrderListParams) :
  pairs_at "customer_id" (query_Values (Some p))
  = match lp_CustomerID p with Some n => [Sprintf_d n] | None => [] end.
Proof.
  unfold query_Values.
  rewrite !pairs_at_app, !pairs_at_query_ptr.
  rewrite !pairs_at_query_field by reflexivity. simpl.
  now rewrite app_nil_r.
Qed.

Lemma query_Values_status_id (p : OrderListParams) :
  pairs_at "status_id" (query_Values (Some p))
  = match lp_StatusID p with Some n => [Sprintf_d n] | None => [] end.
Proof.
  unfold query_Values.
  rewrite !pairs_at_app, !pairs_at_query_ptr.
  rewrite !pairs_at_query_field by reflexivity. simpl.
  now rewrite app_nil_r.
Qed.

Lemma addQueryStructs_snoc (qs : list (option OrderListParams))
    (q : option OrderListParams) :
  addQueryStructs (qs ++ [q]) = add_pairs (addQueryStructs qs) (query_Values q).
Proof. unfold addQueryStructs. now rewrite fold_left_app. Qed.

(** The query a List or Count request carries under a key: what the query
    structs already in the service's Sling emit, then what the parameters of
    the call emit. *)
Lemma query_of_call (k : string) (c : Call) (p : option OrderListParams)
    (v : Sling) :
  c = CallList p \/ c = CallCount p ->
  Values_at k (req_query (Sling_Request (sent c v)))
  = Values_at k (addQueryStructs (queryStructs v)) ++ pairs_at k (query_Values p)
  /\ Values_Has k (req_query (Sling_Request (sent c v)))
     = Values_Has k (addQueryStructs (queryStructs v))
       || negb (Nat.eqb (length (pairs_at k (query_Values p))) 0).
Proof.
  intros [->| ->]; simpl; rewrite addQueryStructs_snoc;
    now rewrite Values_at_add_pairs, Values_Has_add_pairs.
Qed.

(** On a service whose Sling carries no query struct, List and Count omit
    [customer_id] (respectively [status_id]) for a nil pointer and send the
    value, ["0"] for a pointer to 0, otherwise. *)
Lemma query_of_call_on_clean_sling (c : Call) (p : OrderListParams) (v : Sling) :
  c = CallList (Some p) \/ c = CallCount (Some p) ->
  queryStructs v = [] ->
  let q := req_query (Sling_Request (sent c v)) in
  Values_Has "customer_id" q = negb (empty_ptr (lp_CustomerID p))
  /\ Values_Has "status_id" q = negb (empty_ptr (lp_StatusID p))
  /\ Values_at "customer_id" q
     = match lp_CustomerID p with Some n => [Sprintf_d n] | None => [] end
  /\ Values_at "status_id" q
     = match lp_StatusID p with Some n => [Sprintf_d n] | None => [] end.
Proof.
  intros C Q q. subst q.
  destruct (query_of_call "customer_id" c (Some p) v C) as [A1 H1].
  destruct (query_of_call "status_id" c (Some p) v C) as [A2 H2].
  rewrite A1, A2, H1, H2, Q, query_Values_customer_id, query_Values_status_id.
  simpl. repeat split.
  - now destruct (lp_CustomerID p).
  - now destruct (lp_StatusID p).
Qed.

(** C2 (code bug, evaluated): after a Count call that filtered on customer
    5, a List call whose CustomerID is nil still sends [customer_id=5]: the
    parameters of the Count call stayed in the service's Sling. *)
Theorem List_sends_stale_customer_id :
  exists (x : OrderService * list Result) (w : World) (r1 r2 : Request),
    lp_CustomerID OrderListParams_zero = None
    /\ session [ CallCount (Some (mkOrderListParams 0 0 "" 0 0 F32Zero F32Zero
                                   (Some 5%Z) "" None ""));
                 CallList (Some OrderListParams_zero) ] (world0 offline)
       = Some (x, w)
    /\ wire w = [r1; r2]
    /\ Values_Has "customer_id" (req_query r2) = true
    /\ Values_at "customer_id" (req_query r2) = ["5"]
    /\ request_line r2
       = ("GET",
          "https://api.bigcommerce.com/stores/abc/v2/orders/count?customer_id=5").
Proof.
  do 4 eexists. split; [reflexivity|].
  split; [vm_compute; reflexivity|].
  split; [vm_compute; reflexivity|].
  repeat split; vm_compute; reflexivity.
Qed.

(** ** Method and path of the requests *)

Lemma append_cons (c : ascii) (a b : string) :
  String c a +:+ b = String c (a +:+ b).
Proof. reflexivity. Qed.

Lemma append_nil_r (a : string) : a +:+ "" = a.
Proof.
  induction a as [|x a IH]; [reflexivity|]. now rewrite append_cons, IH.
Qed.

Lemma append_assoc (a b c : string) : (a +:+ b) +:+ c = a +:+ (b +:+ c).
Proof.
  induction a as [|x a IH]; [reflexivity|]. now rewrite !append_cons, IH.
Qed.

Lemma has_slash_end (x : string) : has_slash (x +:+ "/") = true.
Proof.
  induction x as [|c x IH]; [reflexivity|].
  rewrite append_cons. simpl. rewrite IH. apply orb_true_r.
Qed.

Lemma dir_of_slash_end (x : string) : dir_of (x +:+ "/") = x +:+ "/".
Proof.
  induction x as [|c x IH]; [reflexivity|].
  rewrite append_cons. simpl. now rewrite has_slash_end, IH.
Qed.

Lemma starts_with_slash_app (a b : string) :
  starts_with_slash a = true -> starts_with_slash (a +:+ b) = true.
Proof. destruct a; [discriminate|]. rewrite append_cons. trivial. Qed.

Lemma rooted_nonempty (a : string) :
  starts_with_slash a = true -> String.eqb a "" = false.
Proof. destruct a; simpl; [discriminate|trivial]. Qed.

(** A relative reference resolved against a rooted path that ends with a
    slash is appended to it; the empty reference leaves it as it is. *)
Lemma resolvePath_below (dir ref : string) :
  starts_with_slash dir = true ->
  String.eqb ref "" = false ->
  starts_with_slash ref = false ->
  resolvePath (dir +:+ "/") ref = (dir +:+ "/") +:+ ref.
Proof.
  intros D N R. unfold resolvePath. rewrite N, R, dir_of_slash_end.
  assert (S1 : starts_with_slash ((dir +:+ "/") +:+ ref) = true)
    by now apply starts_with_slash_app, starts_with_slash_app.
  now rewrite (rooted_nonempty _ S1), S1.
Qed.

Lemma resolvePath_same (p : string) :
  starts_with_slash p = true -> resolvePath p "" = p.
Proof.
  intros D. unfold resolvePath. simpl. now rewrite (rooted_nonempty _ D), D.
Qed.

Lemma Sprintf_d_relative (n : Z) :
  String.eqb (Sprintf_d n) "" = false /\ starts_with_slash (Sprintf_d n) = false.
Proof.
  unfold Sprintf_d. destruct (Z.to_int n) as [d|d]; [destruct d|]; now split.
Qed.

(** The text [Sprintf_d] prints reads back, as a decimal numeral, as the
    number printed. *)
Lemma Sprintf_d_decimal (n : Z) :
  option_map Z.of_int (NilZero.int_of_string (Sprintf_d n)) = Some n.
Proof.
  unfold Sprintf_d. rewrite NilZero.isi.
  - simpl. now rewrite DecimalZ.of_to.
  - destruct n as [|p|p]; simpl; try discriminate.
    intros [= Q]. now apply (Unsigned.to_uint_nonnil p).
  - destruct n as [|p|p]; simpl; try discriminate.
    intros [= Q]. now apply (Unsigned.to_uint_nonnil p).
Qed.

(** [newOrderService] points the Sling it is given below [orders/]. *)
Lemma newOrderService_run (l : loc) (client : Client) (b : Sling) (w : World) :
  heap w !! l = Some (OSling b) ->
  newOrderService l client w
  = Some (mkOrderService l client,
          mkWorld (<[l:=OSling (with_verb b (method b) "orders/")]> (heap w))
                  (wire w) (remote w)).
Proof.
  destruct w as [h q r]. simpl. intros E. unfold newOrderService.
  now rewrite (bind_run _ _ _ _ _ _ _ (Sling_Path_run _ _ _ _ _ _ E)).
Qed.

(** Built over a base Sling with the method GET and a rooted path ending
    in a slash, the service holds a Sling for GET on that path followed by
    [orders/], with the query structs of the base. *)
Lemma newOrderService_clean (l : loc) (client : Client) (b : Sling) (w : World)
    (dir : string) :
  heap w !! l = Some (OSling b) ->
  method b = "GET" ->
  url_path (rawURL b) = dir +:+ "/" ->
  starts_with_slash dir = true ->
  exists (s : OrderService) (w' : World) (v : Sling),
    newOrderService l client w = Some (s, w')
    /\ heap w' !! sling s = Some (OSling v)
    /\ method v = "GET"
    /\ url_path (rawURL v) = (dir +:+ "/") +:+ "orders/"
    /\ queryStructs v = queryStructs b.
Proof.
  intros E G P D. eexists _, _, _.
  split; [exact (newOrderService_run l client b w E)|]. simpl.
  split; [apply list_lookup_insert_eq; eapply lookup_lt_Some, E|].
  simpl. split; [exact G|]. split; [|reflexivity].
  rewrite P. now apply resolvePath_below.
Qed.

(** X16: on a service whose Sling still has the method GET and a rooted path
    ending in [orders/], every call sends exactly one request, with the
    method and the path the spec gives the operation. *)
Lemma request_on_clean_sling (s : OrderService) (ctx : Context) (c : Call)
    (v : Sling) (w : World) (root : string) :
  heap w !! sling s = Some (OSling v) ->
  method v = "GET" ->
  url_path (rawURL v) = root +:+ "orders/" ->
  starts_with_slash root = true ->
  exists (x : Result) (w' : World) (req : Request),
    call s ctx c w = Some (x, w')
    /\ wire w' = wire w ++ [req]
    /\ req_method req = verb_of c
    /\ url_origin (req_url req) = url_origin (rawURL v)
    /\ url_path (req_url req) = (root +:+ "orders/") +:+ suffix_of c.
Proof.
  intros E G P D.
  assert (P' : url_path (rawURL v) = (root +:+ "orders") +:+ "/")
    by now rewrite P, append_assoc.
  assert (D' : starts_with_slash (root +:+ "orders") = true)
    by now apply starts_with_slash_app.
  eexists _, _, _. split; [exact (call_run s ctx c v w E)|].
  split; [reflexivity|].
  destruct c as [params|params|id|body|id params]; simpl;
    (split; [try reflexivity; exact G|]); (split; [reflexivity|]);
    rewrite ?append_nil_r.
  - exact P.
  - rewrite P', resolvePath_below by (trivial; reflexivity).
    now rewrite <- P', P.
  - destruct (Sprintf_d_relative id) as [N R].
    rewrite P', resolvePath_below by trivial. now rewrite <- P', P.
  - rewrite resolvePath_same; [exact P|].
    rewrite P. now apply starts_with_slash_app.
  - destruct (Sprintf_d_relative id) as [N R].
    rewrite P', resolvePath_below by trivial. now rewrite <- P', P.
Qed.

(** C4 (code bug, evaluated): once Count has been called, List and New no
    longer go to [orders/]: List sends GET [orders/count] and New sends POST
    [orders/count].  Show and Edit still reach [orders/{id}]. *)
Theorem List_and_New_follow_Count :
  exists (x : OrderService * list Result) (w : World),
    session [ CallCount (Some OrderListParams_zero);
              CallList (Some OrderListParams_zero);
              CallNew (Some OrderBody_zero);
              CallShow 7;
              CallEdit 7 (Some OrderEditParams_zero) ] (world0 offline)
    = Some (x, w)
    /\ map request_line (wire w)
       = [ ("GET", "https://api.bigcommerce.com/stores/abc/v2/orders/count");
           ("GET", "https://api.bigcommerce.com/stores/abc/v2/orders/count");
           ("POST", "https://api.bigcommerce.com/stores/abc/v2/orders/count");
           ("GET", "https://api.bigcommerce.com/stores/abc/v2/orders/7");
           ("PUT", "https://api.bigcommerce.com/stores/abc/v2/orders/7") ].
Proof. do 2 eexists. split; vm_compute; reflexivity. Qed.

(** * Further properties of the package *)

(** ** Decoding: which member reaches which field *)

Lemma find_unique (A : Type) (p : A -> bool) (l : list A) (a : A) :
  In a l -> p a = true ->
  (forall b, In b l -> p b = true -> b = a) ->
  find p l = Some a.
Proof.
  induction l as [|x l IH]; simpl; [intros []|].
  intros I Pa U. destruct (p x) eqn:Px.
  - f_equal. apply U; auto.
  - destruct I as [->|I]; [congruence|]. apply IH; auto.
Qed.

Lemma map_inj_on (A B : Type) (f : A -> B) (l : list A) (a b : A) :
  NoDup (map f l) -> In a l -> In b l -> f a = f b -> a = b.
Proof.
  induction l as [|x l IH]; simpl; [intros _ []|].
  intros N Ia Ib Q. apply NoDup_cons in N as [Nx N].
  destruct Ia as [->|Ia], Ib as [->|Ib]; auto.
  - exfalso. apply Nx. rewrite Q. apply list_elem_of_In. now apply in_map.
  - exfalso. apply Nx. rewrite <- Q. apply list_elem_of_In. now apply in_map.
Qed.

(** No two tags of [Order] differ in case only. *)
Lemma Order_tags_fold_NoDup : NoDup (map foldName Order_tags).
Proof. apply (bool_decide_unpack (NoDup (map foldName Order_tags))). vm_compute. exact I. Qed.

(** A key that folds like a tag is routed to the field of that tag. *)
Lemma resolve_folded_tag (tags : list string) (k t : string) :
  NoDup (map foldName tags) ->
  In t tags -> foldName k = foldName t -> resolve tags k = Some t.
Proof.
  intros N I Q. unfold resolve.
  destruct (find (String.eqb k) tags) as [t'|] eqn:F.
  - apply find_some in F as [I' E]. apply String.eqb_eq in E. subst t'.
    f_equal. now apply (map_inj_on _ _ foldName tags).
  - apply find_unique; [exact I| |].
    + rewrite Q. apply String.eqb_refl.
    + intros b Ib Eb. apply String.eqb_eq in Eb.
      apply (map_inj_on _ _ foldName tags); auto. congruence.
Qed.

Lemma routed_cons (tags : list string) (t k : string) (v : JSON) (m : members) :
  routed tags t ((k, v) :: m)
  = (match resolve tags k with
     | Some t' => if String.eqb t' t then [v] else []
     | None => []
     end) ++ routed tags t m.
Proof.
  unfold routed. simpl.
  destruct (resolve tags k) as [t'|]; [|reflexivity].
  now destruct (String.eqb t' t).
Qed.

Lemma routed_middle_hit (tags : list string) (t k : string) (v : JSON)
    (m1 m2 : members) :
  resolve tags k = Some t -> routed tags t m2 = [] ->
  routed tags t (m1 ++ (k, v) :: m2) = routed tags t m1 ++ [v].
Proof.
  intros R E. now rewrite routed_app, routed_cons, R, String.eqb_refl, E.
Qed.

Lemma In_Order_tags (t : string) :
  existsb (String.eqb t) Order_tags = true -> In t Order_tags.
Proof.
  intros E. apply existsb_exists in E as [x [I Q]].
  apply String.eqb_eq in Q. now subst.
Qed.

Lemma resolve_Order_tag (t k : string) :
  existsb (String.eqb t) Order_tags = true ->
  foldName k = foldName t -> resolve Order_tags k = Some t.
Proof.
  intros E Q. apply resolve_folded_tag; trivial.
  - apply Order_tags_fold_NoDup.
  - now apply In_Order_tags.
Qed.

Lemma routed_to_tag (t k : string) (v : JSON) (m1 m2 : members) :
  existsb (String.eqb t) Order_tags = true ->
  foldName k = foldName t ->
  routed Order_tags t m2 = [] ->
  routed Order_tags t (m1 ++ (k, v) :: m2) = routed Order_tags t m1 ++ [v].
Proof.
  intros E Q R. apply routed_middle_hit; trivial. now apply resolve_Order_tag.
Qed.

Lemma into_int32_last (old z : Z) (text : string) (vs : list JSON) :
  parse_int32 text = Some z -> into_int32 old (vs ++ [JNumber text]) = z.
Proof. intros P. unfold into_int32. rewrite fold_left_app. simpl. now rewrite P. Qed.

Lemma into_int32_skip (old : Z) (v : JSON) (a b : list JSON) :
  v = JNull \/ int32_ok v = false ->
  into_int32 old (a ++ v :: b) = into_int32 old (a ++ b).
Proof.
  intros H. unfold into_int32. rewrite !fold_left_app. simpl. f_equal.
  destruct H as [->|H]; [reflexivity|].
  destruct v; try reflexivity. simpl in H.
  now destruct (parse_int32 text).
Qed.

Lemma into_string_skip (old : string) (a b : list JSON) :
  into_string old (a ++ JNull :: b) = into_string old (a ++ b).
Proof. unfold into_string. now rewrite !fold_left_app. Qed.

Lemma into_address_skip (old : AddressEntity) (a b : list JSON) :
  into_address old (a ++ JNull :: b) = into_address old (a ++ b).
Proof. unfold into_address. now rewrite !fold_left_app. Qed.

(** X1: a string field of Order holds, after decoding, the string the
    object carries under the field's tag, also when the key is written in
    another case; of several such members the last one counts. *)
Theorem Order_string_field_decoded (t k : string) (f : Order -> string)
    (m1 m2 : members) (s : string) (o : Order) :
  In (t, f) Order_string_fields ->
  foldName k = foldName t ->
  routed Order_tags t m2 = [] ->
  f (decode_Order_members (m1 ++ (k, JString s) :: m2) o) = s.
Proof.
  intros I Q R. unfold Order_string_fields in I. simpl in I.
  repeat (destruct I as [I|I];
          [injection I as <- <-; simpl;
           rewrite routed_to_tag; [apply into_string_last|reflexivity|exact Q
                                  |exact R]|]).
  contradiction.
Qed.

Lemma Order_string_field_decoded_witness :
  TotalIncTax
    (decode_Order_members
       ([("id", JNumber "7")] ++ ("Total_Inc_Tax", JString "10.5000")
                              :: [("status", JString "Shipped")]) Order_zero)
  = "10.5000".
Proof.
  apply (Order_string_field_decoded "total_inc_tax" "Total_Inc_Tax" TotalIncTax
           [("id", JNumber "7")] [("status", JString "Shipped")] "10.5000"
           Order_zero).
  - do 14 right. left. reflexivity.
  - reflexivity.
  - reflexivity.
Defined.

(** X2: an int32 field of Order holds, after decoding, the integer the
    object carries under the field's tag, when the number is a decimal
    integer within the 32-bit range. *)
Theorem Order_int32_field_decoded (t k : string) (f : Order -> Z)
    (m1 m2 : members) (text : string) (z : Z) (o : Order) :
  In (t, f) Order_int32_fields ->
  foldName k = foldName t ->
  routed Order_tags t m2 = [] ->
  parse_int32 text = Some z ->
  f (decode_Order_members (m1 ++ (k, JNumber text) :: m2) o) = z.
Proof.
  intros I Q R P. unfold Order_int32_fields in I. simpl in I.
  repeat (destruct I as [I|I];
          [injection I as <- <-; simpl;
           rewrite routed_to_tag; [now apply into_int32_last|reflexivity
                                  |exact Q|exact R]|]).
  contradiction.
Qed.

Lemma Order_int32_field_decoded_witness :
  ID (decode_Order_members
        ([] ++ ("id", JNumber "2147483647") :: [("status", JString "Shipped")])
        Order_zero)
  = 2147483647%Z.
Proof.
  apply (Order_int32_field_decoded "id" "id" ID [] [("status", JString "Shipped")]
           "2147483647" 2147483647%Z Order_zero).
  - left. reflexivity.
  - reflexivity.
  - reflexivity.
  - reflexivity.
Defined.

(** X3: a member routed to an int32 field of Order whose value is not an
    integer within the 32-bit range (a number that overflows, a fraction, a
    string, an object) leaves the field as the other members set it, and
    the decoder reports an error. *)
Theorem Order_int32_field_rejected (t k : string) (f : Order -> Z)
    (m1 m2 : members) (v : JSON) (o : Order) :
  In (t, f) Order_int32_fields ->
  foldName k = foldName t ->
  int32_ok v = false ->
  f (decode_Order_members (m1 ++ (k, v) :: m2) o)
  = f (decode_Order_members (m1 ++ m2) o)
  /\ Order_members_ok (m1 ++ (k, v) :: m2) = false.
Proof.
  intros I Q B. unfold Order_int32_fields in I. simpl in I.
  unfold Order_members_ok. rewrite forallb_app. simpl.
  repeat (destruct I as [I|I];
          [injection I as <- <-;
           match type of Q with
           | _ = foldName ?t' =>
               pose proof (resolve_Order_tag t' k eq_refl Q) as RS
           end;
           rewrite RS; simpl; rewrite !routed_app, routed_cons, RS; simpl;
           split;
           [apply into_int32_skip; now right
           |unfold Order_value_ok; simpl; rewrite B; apply andb_false_r]|]).
  contradiction.
Qed.

Lemma Order_int32_field_rejected_witness :
  ID (decode_Order_members
        ([("status", JString "Shipped")] ++ ("id", JNumber "2147483648") :: [])
        Order_zero)
  = ID (decode_Order_members ([("status", JString "Shipped")] ++ []) Order_zero)
  /\ Order_members_ok
       ([("status", JString "Shipped")] ++ ("id", JNumber "2147483648") :: [])
     = false.
Proof.
  apply (Order_int32_field_rejected "id" "id" ID [("status", JString "Shipped")]
           [] (JNumber "2147483648") Order_zero).
  - left. reflexivity.
  - reflexivity.
  - reflexivity.
Defined.

Lemma routed_skip (tags : list string) (t k : string) (v : JSON)
    (m1 m2 : members) :
  resolve tags k = None ->
  routed tags t (m1 ++ (k, v) :: m2) = routed tags t (m1 ++ m2).
Proof. intros R. now rewrite !routed_app, routed_cons, R. Qed.

Lemma routed_null (tags : list string) (t k : string) (m1 m2 : members) :
  routed tags t (m1 ++ (k, JNull) :: m2) = routed tags t (m1 ++ m2)
  \/ routed tags t (m1 ++ (k, JNull) :: m2)
     = routed tags t m1 ++ JNull :: routed tags t m2.
Proof.
  rewrite !routed_app, routed_cons.
  destruct (resolve tags k) as [t'|]; [|now left].
  destruct (String.eqb t' t); [now right|now left].
Qed.

Lemma into_string_routed_null (old t k : string) (m1 m2 : members) :
  into_string old (routed Order_tags t (m1 ++ (k, JNull) :: m2))
  = into_string old (routed Order_tags t (m1 ++ m2)).
Proof.
  destruct (routed_null Order_tags t k m1 m2) as [-> | ->]; [reflexivity|].
  now rewrite into_string_skip, routed_app.
Qed.

Lemma into_int32_routed_null (old : Z) (t k : string) (m1 m2 : members) :
  into_int32 old (routed Order_tags t (m1 ++ (k, JNull) :: m2))
  = into_int32 old (routed Order_tags t (m1 ++ m2)).
Proof.
  destruct (routed_null Order_tags t k m1 m2) as [-> | ->]; [reflexivity|].
  rewrite into_int32_skip by now left. now rewrite routed_app.
Qed.

Lemma into_address_routed_null (old : AddressEntity) (t k : string)
    (m1 m2 : members) :
  into_address old (routed Order_tags t (m1 ++ (k, JNull) :: m2))
  = into_address old (routed Order_tags t (m1 ++ m2)).
Proof.
  destruct (routed_null Order_tags t k m1 m2) as [-> | ->]; [reflexivity|].
  now rewrite into_address_skip, routed_app.
Qed.

Lemma Order_value_ok_null (t : string) : Order_value_ok t JNull = true.
Proof.
  unfold Order_value_ok.
  destruct (String.eqb t "billing_address"); [reflexivity|].
  now destruct (existsb (String.eqb t) Order_int32_tags).
Qed.

(** X4: a member whose key matches no tag of Order, and a member whose
    value is null, change nothing: the Order decoded and the error reported
    are those of the object without that member. *)
Theorem decode_Order_skips (k : string) (v : JSON) (m1 m2 : members) (o : Order) :
  resolve Order_tags k = None \/ v = JNull ->
  decode_Order (JObject (m1 ++ (k, v) :: m2)) o
  = decode_Order (JObject (m1 ++ m2)) o.
Proof.
  intros H. simpl. f_equal.
  - unfold decode_Order_members. destruct H as [R| ->].
    + now rewrite !(routed_skip Order_tags _ k v m1 m2 R).
    + now rewrite !into_string_routed_null, !into_int32_routed_null,
        !into_address_routed_null.
  - unfold Order_members_ok. rewrite !forallb_app. simpl. f_equal.
    destruct H as [-> | ->]; [reflexivity|].
    destruct (resolve Order_tags k); [|reflexivity].
    now rewrite Order_value_ok_null.
Qed.

Lemma decode_Order_skips_witness :
  decode_Order
    (JObject ([("id", JNumber "7")] ++ ("coupon_discount", JString "5.0000")
                                    :: [("status", JNull)])) Order_zero
  = decode_Order (JObject ([("id", JNumber "7")] ++ [("status", JNull)]))
                 Order_zero.
Proof.
  apply (decode_Order_skips "coupon_discount" (JString "5.0000")
           [("id", JNumber "7")] [("status", JNull)] Order_zero).
  left. reflexivity.
Defined.

Lemma decode_Order_items_fresh (items : list JSON) :
  decode_Order_items items []
  = map (fun j => decode_Order j Order_zero) items.
Proof.
  induction items as [|j js IH]; simpl; [reflexivity|]. now rewrite IH.
Qed.

(** X5: an array decoded into the nil Orders of List gives a slice with one
    Order per element, in the order of the array, each decoded into a fresh
    Order; the empty array gives the empty slice, not nil; an error is
    reported exactly when an element reports one. *)
Theorem decode_Orders_array (items : list JSON) :
  exists l : list Order,
    decode_Orders (JArray items) None
    = (Some l, forallb (fun j => snd (decode_Order j Order_zero)) items)
    /\ length l = length items
    /\ forall (i : nat) (j : JSON),
         items !! i = Some j -> l !! i = Some (fst (decode_Order j Order_zero)).
Proof.
  exists (map (fun j => fst (decode_Order j Order_zero)) items).
  split; [|split].
  - simpl. rewrite decode_Order_items_fresh, map_map. f_equal.
    induction items as [|j js IH]; simpl; [reflexivity|]. now rewrite IH.
  - apply length_map.
  - induction items as [|x xs IH]; intros [|i] j E; try discriminate E.
    + injection E as ->. reflexivity.
    + simpl. now apply IH.
Qed.

(** ** Encoding: what the parameters put in the request *)

Lemma pairs_at_query_field_gen (k key value : string) (empty : bool) :
  pairs_at k (query_field empty key value)
  = if String.eqb key k then (if empty then [] else [value]) else [].
Proof.
  destruct empty; unfold pairs_at; simpl; now destruct (String.eqb key k).
Qed.


(** A key outside a list of names differs from each of them. *)
Ltac other_key N k :=
  repeat match goal with
         | |- context [String.eqb ?tag k] =>
             replace (String.eqb tag k) with false
               by (symmetry; apply String.eqb_neq; intros ?; subst k;
                   apply N; simpl; tauto)
         end.

(** X6: on a service whose Sling carries no query struct, the query of a
    List or Count request holds, for each field of the parameters, nothing
    when the field has its zero value (0, the empty string, a nil pointer)
    and its one value otherwise, and holds no other key. *)
Theorem List_Count_query (c : Call) (p : OrderListParams) (v : Sling) :
  c = CallList (Some p) \/ c = CallCount (Some p) ->
  queryStructs v = [] ->
  let q := req_query (Sling_Request (sent c v)) in
  Values_at "page" q
  = (if Z.eqb (lp_Page p) 0 then [] else [Sprintf_d (lp_Page p)])
  /\ Values_at "limit" q
     = (if Z.eqb (lp_Limit p) 0 then [] else [Sprintf_d (lp_Limit p)])
  /\ Values_at "sort" q
     = (if String.eqb (lp_Sort p) "" then [] else [lp_Sort p])
  /\ Values_at "min_id" q
     = (if Z.eqb (lp_MinID p) 0 then [] else [Sprintf_d (lp_MinID p)])
  /\ Values_at "max_id" q
     = (if Z.eqb (lp_MaxID p) 0 then [] else [Sprintf_d (lp_MaxID p)])
  /\ Values_at "min_total" q
     = (if float32_is_zero (lp_MinTotal p) then []
        else [float32_text (lp_MinTotal p)])
  /\ Values_at "max_total" q
     = (if float32_is_zero (lp_MaxTotal p) then []
        else [float32_text (lp_MaxTotal p)])
  /\ Values_at "customer_id" q
     = match lp_CustomerID p with Some n => [Sprintf_d n] | None => [] end
  /\ Values_at "email" q
     = (if String.eqb (lp_Email p) "" then [] else [lp_Email p])
  /\ Values_at "status_id" q
     = match lp_StatusID p with Some n => [Sprintf_d n] | None => [] end
  /\ Values_at "payment_method" q
     = (if String.eqb (lp_PaymentMethod p) "" then [] else [lp_PaymentMethod p])
  /\ forall k : string, ~ In k OrderListParams_tags -> Values_Has k q = false.
Proof.
  intros C Q q. subst q.
  repeat match goal with |- _ /\ _ => split end;
    try (match goal with
         | |- Values_at ?key _ = _ =>
             destruct (query_of_call key c (Some p) v C) as [A _]
         end;
         rewrite A, Q; unfold query_Values, empty_int, empty_string;
         rewrite !pairs_at_app, !pairs_at_query_ptr, !pairs_at_query_field_gen;
         simpl;
         repeat match goal with
                | |- context [match ?o with Some _ => _ | None => _ end] =>
                    destruct o
                | |- context [if ?b then _ else _] => destruct b
                end;
         reflexivity).
  intros k N.
  destruct (query_of_call k c (Some p) v C) as [_ H].
  rewrite H, Q. unfold query_Values.
  rewrite !pairs_at_app, !pairs_at_query_ptr, !pairs_at_query_field_gen.
  other_key N k. reflexivity.
Qed.

Lemma List_Count_query_witness :
  Values_at "limit"
    (req_query
       (Sling_Request
          (sent (CallList (Some (mkOrderListParams 0 50 "" 0 0 F32Zero F32Zero
                                   (Some 0%Z) "" None "")))
                base_sling)))
  = ["50"].
Proof.
  exact (proj1 (proj2
           (List_Count_query
              (CallList (Some (mkOrderListParams 0 50 "" 0 0 F32Zero F32Zero
                                 (Some 0%Z) "" None "")))
              (mkOrderListParams 0 50 "" 0 0 F32Zero F32Zero (Some 0%Z) "" None "")
              base_sling (or_introl eq_refl) eq_refl))).
Defined.






(** ** The store across calls *)

Lemma heap_after_keeps (s : OrderService) (c : Call) (v : Sling)
    (x : Object * Object * option Response * option error) (h : list Object)
    (l : loc) (o : Object) :
  h !! l = Some o ->
  is_Count_call c = false \/ l <> sling s ->
  heap_after s c v x h !! l = Some o.
Proof.
  intros L H. unfold heap_after.
  destruct c; try (now apply below).
  destruct H as [H|H]; [discriminate H|].
  apply below. now rewrite list_lookup_insert_ne by congruence.
Qed.

Lemma heap_after_sling (s : OrderService) (c : Call) (v : Sling)
    (x : Object * Object * option Response * option error) (h : list Object) :
  h !! sling s = Some (OSling v) ->
  heap_after s c v x h !! sling s
  = Some (OSling (if is_Count_call c then sent c v else v)).
Proof.
  intros E. unfold heap_after.
  destruct c; simpl; try (now apply below).
  apply below, list_lookup_insert_eq. eapply lookup_lt_Some, E.
Qed.

Lemma heap_after_payload (s : OrderService) (c : Call) (v : Sling)
    (x : Object * Object * option Response * option error) (h : list Object) :
  heap_after s c v x h !! length h = Some (rcv_success x).
Proof.
  unfold heap_after. destruct c; try apply at0.
  rewrite <- (length_insert h (sling s) (OSling (sent (CallCount params) v))).
  apply at0.
Qed.

Lemma heap_after_length (s : OrderService) (c : Call) (v : Sling)
    (x : Object * Object * option Response * option error) (h : list Object) :
  length h < length (heap_after s c v x h).
Proof.
  unfold heap_after.
  destruct c; rewrite length_app, ?length_insert; simpl; lia.
Qed.

(** X9: a call on a live service changes no object that existed before it,
    with one exception: Count changes the Sling of the service. *)
Theorem call_frame (s : OrderService) (ctx : Context) (c : Call) (v : Sling)
    (w : World) (l : loc) (o : Object) :
  heap w !! sling s = Some (OSling v) ->
  heap w !! l = Some o ->
  is_Count_call c = false \/ l <> sling s ->
  exists (x : Result) (w' : World),
    call s ctx c w = Some (x, w') /\ heap w' !! l = Some o.
Proof.
  intros E L H. eexists _, _. split; [exact (call_run s ctx c v w E)|].
  now apply heap_after_keeps.
Qed.

Lemma call_frame_witness :
  exists (x : Result) (w' : World),
    call (mkOrderService 0 1) 0 (CallNew (Some OrderBody_zero)) (world0 offline)
    = Some (x, w')
    /\ heap w' !! 0 = Some (OSling base_sling).
Proof.
  apply (call_frame (mkOrderService 0 1) 0 (CallNew (Some OrderBody_zero))
           base_sling (world0 offline) 0 (OSling base_sling));
    [reflexivity|reflexivity|left; reflexivity].
Defined.

(** X10: two calls in a row on a live service return different payload
    pointers, and the second call leaves the payload of the first as the
    first call left it. *)
Theorem payloads_do_not_alias (s : OrderService) (ctx1 ctx2 : Context)
    (c1 c2 : Call) (v : Sling) (w : World) :
  heap w !! sling s = Some (OSling v) ->
  exists (p1 p2 : loc) (r1 r2 : option Response) (e1 e2 : option error)
         (w1 w2 : World),
    call s ctx1 c1 w = Some ((p1, r1, e1), w1)
    /\ call s ctx2 c2 w1 = Some ((p2, r2, e2), w2)
    /\ p1 <> p2
    /\ is_Some (heap w1 !! p1)
    /\ heap w2 !! p1 = heap w1 !! p1.
Proof.
  intros E.
  set (v1 := if is_Count_call c1 then sent c1 v else v).
  assert (E1 : heap (world_after s ctx1 c1 v w) !! sling s = Some (OSling v1))
    by now apply heap_after_sling.
  assert (P1 : heap (world_after s ctx1 c1 v w) !! length (heap w)
               = Some (rcv_success (answer s ctx1 c1 v w)))
    by apply heap_after_payload.
  eexists _, _, _, _, _, _, _, _.
  split; [exact (call_run s ctx1 c1 v w E)|].
  split; [exact (call_run s ctx2 c2 v1 _ E1)|].
  split; [|split].
  - simpl. pose proof (heap_after_length s c1 v (answer s ctx1 c1 v w) (heap w)).
    lia.
  - eexists. exact P1.
  - transitivity (Some (rcv_success (answer s ctx1 c1 v w)));
      [|symmetry; exact P1].
    apply heap_after_keeps; [exact P1|]. right.
    apply lookup_lt_Some in E. lia.
Qed.

Lemma payloads_do_not_alias_witness :
  exists (p1 p2 : loc) (r1 r2 : option Response) (e1 e2 : option error)
         (w1 w2 : World),
    call (mkOrderService 0 1) 0 (CallCount None) (world0 offline)
    = Some ((p1, r1, e1), w1)
    /\ call (mkOrderService 0 1) 0 (CallShow 7) w1 = Some ((p2, r2, e2), w2)
    /\ p1 <> p2
    /\ is_Some (heap w1 !! p1)
    /\ heap w2 !! p1 = heap w1 !! p1.
Proof.
  apply (payloads_do_not_alias (mkOrderService 0 1) 0 0 (CallCount None)
           (CallShow 7) base_sling (world0 offline)).
  reflexivity.
Defined.

(** X11: a sequence of List, Show, New and Edit calls on a live service
    sends, in order, exactly the request each call sends on its own, one
    per call, and leaves the Sling of the service as it was: none of these
    calls affects the next. *)
Theorem calls_are_independent (s : OrderService) (ctx : Context)
    (cs : list Call) (v : Sling) (w : World) :
  heap w !! sling s = Some (OSling v) ->
  forallb (fun c => negb (is_Count_call c)) cs = true ->
  exists (xs : list Result) (w' : World),
    calls s ctx cs w = Some (xs, w')
    /\ length xs = length cs
    /\ wire w' = wire w ++ map (fun c => Sling_Request (sent c v)) cs
    /\ heap w' !! sling s = Some (OSling v).
Proof.
  revert w. induction cs as [|c cs IH]; intros w E N.
  - exists [], w. simpl. now rewrite app_nil_r.
  - simpl in N. apply andb_true_iff in N as [Nc N].
    apply negb_true_iff in Nc.
    assert (E1 : heap (world_after s ctx c v w) !! sling s = Some (OSling v)).
    { pose proof (heap_after_sling s c v (answer s ctx c v w) (heap w) E) as H.
      now rewrite Nc in H. }
    destruct (IH _ E1 N) as (xs & w' & R & L & W & S').
    exists (result_of s ctx c v w :: xs), w'. simpl.
    rewrite (bind_run _ _ _ _ _ _ _ (call_run s ctx c v w E)).
    rewrite (bind_run _ _ _ _ _ _ _ R).
    split; [reflexivity|]. split; [simpl; now rewrite L|].
    split; [|exact S']. rewrite W. simpl. now rewrite <- app_assoc.
Qed.

Lemma calls_are_independent_witness :
  exists (xs : list Result) (w' : World),
    calls (mkOrderService 0 1) 0
          [CallList None; CallShow 7; CallNew None] (world0 offline)
    = Some (xs, w')
    /\ length xs = 3
    /\ wire w'
       = wire (world0 offline)
         ++ map (fun c => Sling_Request (sent c base_sling))
                [CallList None; CallShow 7; CallNew None]
    /\ heap w' !! 0 = Some (OSling base_sling).
Proof.
  apply (calls_are_independent (mkOrderService 0 1) 0
           [CallList None; CallShow 7; CallNew None] base_sling (world0 offline));
    reflexivity.
Defined.

Lemma addQueryStructs_nil_pointer (qs : list (option OrderListParams)) :
  addQueryStructs (qs ++ [None]) = addQueryStructs qs.
Proof. now rewrite addQueryStructs_snoc. Qed.

(** X12: nil parameters are accepted.  List and Count with a nil pointer
    add nothing to the query of the request; New and Edit with a nil
    pointer send the JSON text null as the body.  Each call still returns
    after one request. *)
Theorem nil_parameters (s : OrderService) (ctx : Context) (id : Z) (v : Sling)
    (w : World) :
  heap w !! sling s = Some (OSling v) ->
  (exists x w' req,
      OrderService_List s ctx None w = Some (x, w')
      /\ wire w' = wire w ++ [req]
      /\ req_query req = addQueryStructs (queryStructs v))
  /\ (exists x w' req,
         OrderService_Count s ctx None w = Some (x, w')
         /\ wire w' = wire w ++ [req]
         /\ req_query req = addQueryStructs (queryStructs v))
  /\ (exists x w' req,
         OrderService_New s ctx None w = Some (x, w')
         /\ wire w' = wire w ++ [req]
         /\ req_body req = Some JNull)
  /\ (exists x w' req,
         OrderService_Edit s ctx id None w = Some (x, w')
         /\ wire w' = wire w ++ [req]
         /\ req_body req = Some JNull).
Proof.
  intros E. repeat split.
  - eexists _, _, _. split; [exact (call_run s ctx (CallList None) v w E)|].
    split; [reflexivity|]. simpl. apply addQueryStructs_nil_pointer.
  - eexists _, _, _. split; [exact (call_run s ctx (CallCount None) v w E)|].
    split; [reflexivity|]. simpl. apply addQueryStructs_nil_pointer.
  - eexists _, _, _. split; [exact (call_run s ctx (CallNew None) v w E)|].
    split; reflexivity.
  - eexists _, _, _. split; [exact (call_run s ctx (CallEdit id None) v w E)|].
    split; reflexivity.
Qed.

Lemma nil_parameters_witness :
  exists x w' req,
    OrderService_List (mkOrderService 0 1) 0 None (world0 offline) = Some (x, w')
    /\ wire w' = wire (world0 offline) ++ [req]
    /\ req_query req = addQueryStructs (queryStructs base_sling).
Proof.
  exact (proj1 (nil_parameters (mkOrderService 0 1) 0 7 base_sling
                  (world0 offline) eq_refl)).
Defined.

(** ** The service and its Sling *)

(** X13: [newOrderService] does not copy the Sling it is given: it sends
    nothing, allocates nothing, leaves every other object alone and moves
    the path of that very Sling below [orders/]; the service it returns
    holds that Sling and the client it was given.  Method, headers, query
    structs and body of the Sling are kept. *)
Theorem newOrderService_shares_sling (l : loc) (client : Client) (b : Sling)
    (w : World) (dir : string) :
  heap w !! l = Some (OSling b) ->
  url_path (rawURL b) = dir +:+ "/" ->
  starts_with_slash dir = true ->
  exists w' : World,
    newOrderService l client w = Some (mkOrderService l client, w')
    /\ wire w' = wire w
    /\ length (heap w') = length (heap w)
    /\ heap w' !! l
       = Some (OSling (mkSling (method b)
                         (mkURL (url_origin (rawURL b))
                                ((dir +:+ "/") +:+ "orders/"))
                         (header b) (queryStructs b) (bodyProvider b)))
    /\ forall l' : loc, l' <> l -> heap w' !! l' = heap w !! l'.
Proof.
  intros E P D. eexists.
  split; [exact (newOrderService_run l client b w E)|]. simpl.
  split; [reflexivity|]. split; [apply length_insert|]. split.
  - rewrite list_lookup_insert_eq by (eapply lookup_lt_Some, E).
    unfold with_verb, ResolveReference. rewrite P.
    now rewrite resolvePath_below.
  - intros l' N. now rewrite list_lookup_insert_ne by congruence.
Qed.

Lemma newOrderService_shares_sling_witness :
  exists w' : World,
    newOrderService 0 1 (world0 offline) = Some (mkOrderService 0 1, w')
    /\ wire w' = wire (world0 offline)
    /\ length (heap w') = length (heap (world0 offline))
    /\ heap w' !! 0
       = Some (OSling (mkSling (method base_sling)
                         (mkURL (url_origin (rawURL base_sling))
                                (("/stores/abc/v2" +:+ "/") +:+ "orders/"))
                         (header base_sling) (queryStructs base_sling)
                         (bodyProvider base_sling)))
    /\ forall l' : loc, l' <> 0 -> heap w' !! l' = heap (world0 offline) !! l'.
Proof.
  apply (newOrderService_shares_sling 0 1 base_sling (world0 offline)
           "/stores/abc/v2"); reflexivity.
Defined.

Lemma request_on_clean_sling_witness :
  exists (x : Result) (w' : World) (req : Request),
    call (mkOrderService 0 1) 0 (CallShow (-12))
         (mkWorld [OSling (with_verb base_sling "GET" "orders/")] [] offline)
    = Some (x, w')
    /\ wire w' = [] ++ [req]
    /\ req_method req = "GET"
    /\ url_origin (req_url req) = "https://api.bigcommerce.com"
    /\ url_path (req_url req)
       = ("/stores/abc/v2/" +:+ "orders/") +:+ Sprintf_d (-12).
Proof.
  apply (request_on_clean_sling (mkOrderService 0 1) 0 (CallShow (-12))
           (with_verb base_sling "GET" "orders/")
           (mkWorld [OSling (with_verb base_sling "GET" "orders/")] [] offline)
           "/stores/abc/v2/"); reflexivity.
Defined.

Lemma has_slash_app (a b : string) :
  has_slash (a +:+ b) = has_slash a || has_slash b.
Proof.
  induction a as [|c a IH]; [reflexivity|].
  rewrite append_cons. simpl. now rewrite IH, orb_assoc.
Qed.

Lemma dir_of_last_segment (a b : string) :
  has_slash b = false -> dir_of ((a +:+ "/") +:+ b) = a +:+ "/".
Proof.
  intros N. induction a as [|c a IH].
  - change (("" +:+ "/") +:+ b) with (String "/" b). simpl. now rewrite N.
  - rewrite !append_cons. simpl. rewrite IH.
    now rewrite has_slash_app, has_slash_end.
Qed.

Lemma resolvePath_sibling (dir last ref : string) :
  starts_with_slash dir = true ->
  has_slash last = false ->
  String.eqb ref "" = false ->
  starts_with_slash ref = false ->
  resolvePath ((dir +:+ "/") +:+ last) ref = (dir +:+ "/") +:+ ref.
Proof.
  intros D L N R. unfold resolvePath. rewrite N, R, dir_of_last_segment by exact L.
  assert (S1 : starts_with_slash ((dir +:+ "/") +:+ ref) = true)
    by now apply starts_with_slash_app, starts_with_slash_app.
  now rewrite (rooted_nonempty _ S1), S1.
Qed.

(** X14: once the Sling of the service points at [orders/count] (as a
    Count call leaves it), every call still sends exactly one request with
    the method of its operation, but List and New reach [orders/count];
    Count reaches [orders/count] again, and Show and Edit reach
    [orders/{id}], the last segment of the path being replaced. *)
Theorem request_after_Count (s : OrderService) (ctx : Context) (c : Call)
    (v : Sling) (w : World) (root : string) :
  heap w !! sling s = Some (OSling v) ->
  method v = "GET" ->
  url_path (rawURL v) = (root +:+ "orders/") +:+ "count" ->
  starts_with_slash root = true ->
  exists (x : Result) (w' : World) (req : Request),
    call s ctx c w = Some (x, w')
    /\ wire w' = wire w ++ [req]
    /\ req_method req = verb_of c
    /\ url_path (req_url req) = (root +:+ "orders/") +:+ suffix_after_Count c.
Proof.
  intros E G P D.
  assert (A : root +:+ "orders/" = (root +:+ "orders") +:+ "/")
    by now rewrite append_assoc.
  assert (D' : starts_with_slash (root +:+ "orders") = true)
    by now apply starts_with_slash_app.
  eexists _, _, _. split; [exact (call_run s ctx c v w E)|].
  split; [reflexivity|].
  destruct c as [params|params|id|body|id params]; simpl;
    (split; [try reflexivity; exact G|]).
  - exact P.
  - rewrite P, A. now apply resolvePath_sibling.
  - destruct (Sprintf_d_relative id) as [N R].
    rewrite P, A. now apply resolvePath_sibling.
  - rewrite resolvePath_same; [exact P|].
    rewrite P. now apply starts_with_slash_app, starts_with_slash_app.
  - destruct (Sprintf_d_relative id) as [N R].
    rewrite P, A. now apply resolvePath_sibling.
Qed.

Lemma request_after_Count_witness :
  exists (x : Result) (w' : World) (req : Request),
    call (mkOrderService 0 1) 0 (CallNew (Some OrderBody_zero))
         (mkWorld [OSling (with_verb (with_verb base_sling "GET" "orders/")
                                     "GET" "count")] [] offline)
    = Some (x, w')
    /\ wire w' = [] ++ [req]
    /\ req_method req = "POST"
    /\ url_path (req_url req) = ("/stores/abc/v2/" +:+ "orders/") +:+ "count".
Proof.
  apply (request_after_Count (mkOrderService 0 1) 0
           (CallNew (Some OrderBody_zero))
           (with_verb (with_verb base_sling "GET" "orders/") "GET" "count")
           (mkWorld [OSling (with_verb (with_verb base_sling "GET" "orders/")
                                       "GET" "count")] [] offline)
           "/stores/abc/v2/"); reflexivity.
Defined.

Lemma Sprintf_d_inj (a b : Z) : Sprintf_d a = Sprintf_d b -> a = b.
Proof.
  intros Q. pose proof (Sprintf_d_decimal a) as A.
  rewrite Q, Sprintf_d_decimal in A. now injection A.
Qed.

Lemma append_inj (d a b : string) : d +:+ a = d +:+ b -> a = b.
Proof.
  induction d as [|c d IH]; [trivial|].
  rewrite !append_cons. intros [= Q]. now apply IH.
Qed.

Lemma resolvePath_inj (base r1 r2 : string) :
  String.eqb r1 "" = false -> starts_with_slash r1 = false ->
  String.eqb r2 "" = false -> starts_with_slash r2 = false ->
  resolvePath base r1 = resolvePath base r2 -> r1 = r2.
Proof.
  intros N1 R1 N2 R2. unfold resolvePath. rewrite N1, R1, N2, R2.
  destruct (dir_of base) as [|c d].
  - change ("" +:+ r1) with r1. change ("" +:+ r2) with r2.
    rewrite N1, R1, N2, R2. apply append_inj.
  - rewrite !append_cons. simpl.
    destruct (Ascii.eqb c "/").
    + intros [= Q]. now apply append_inj in Q.
    + change ("/" +:+ String c (d +:+ r1)) with (String "/" (String c (d +:+ r1))).
      change ("/" +:+ String c (d +:+ r2)) with (String "/" (String c (d +:+ r2))).
      intros [= Q]. now apply append_inj in Q.
Qed.

(** X15: whatever the Sling of the service holds, Show and Edit build, for
    two different ids, requests with two different paths. *)
Theorem order_paths_differ (v : Sling) (id1 id2 : Z)
    (p1 p2 : option OrderEditParams) :
  id1 <> id2 ->
  url_path (req_url (Sling_Request (sent (CallShow id1) v)))
  <> url_path (req_url (Sling_Request (sent (CallShow id2) v)))
  /\ url_path (req_url (Sling_Request (sent (CallEdit id1 p1) v)))
     <> url_path (req_url (Sling_Request (sent (CallEdit id2 p2) v))).
Proof.
  intros D.
  destruct (Sprintf_d_relative id1) as [N1 R1].
  destruct (Sprintf_d_relative id2) as [N2 R2].
  simpl. split; intros Q; apply D, Sprintf_d_inj;
    now apply (resolvePath_inj (url_path (rawURL v))).
Qed.

Lemma order_paths_differ_witness :
  url_path (req_url (Sling_Request (sent (CallShow 7) base_sling)))
  <> url_path (req_url (Sling_Request (sent (CallShow 8) base_sling)))
  /\ url_path (req_url (Sling_Request (sent (CallEdit 7 None) base_sling)))
     <> url_path (req_url (Sling_Request (sent (CallEdit 8 None) base_sling))).
Proof. apply (order_paths_differ base_sling 7 8 None None). lia. Defined.

(** X17: Count on a live service builds its request in the Sling of the
    service itself: after the call that Sling has the method GET, its path
    resolved against [count], and the parameters of the call appended to
    its query structs, so it is no longer what it was; headers and body are
    kept. *)
Theorem Count_leaves_request_in_sling (s : OrderService) (ctx : Context)
    (params : option OrderListParams) (v : Sling) (w : World) :
  heap w !! sling s = Some (OSling v) ->
  exists (x : Result) (w' : World),
    OrderService_Count s ctx params w = Some (x, w')
    /\ heap w' !! sling s
       = Some (OSling (mkSling "GET" (ResolveReference (rawURL v) "count")
                         (header v) (queryStructs v ++ [params])
                         (bodyProvider v)))
    /\ heap w' !! sling s <> heap w !! sling s.
Proof.
  intros E. eexists _, _.
  split; [exact (call_run s ctx (CallCount params) v w E)|].
  assert (H : heap (world_after s ctx (CallCount params) v w) !! sling s
              = Some (OSling (sent (CallCount params) v)))
    by now apply (heap_after_sling s (CallCount params)).
  split; [exact H|].
  rewrite H, E. intros [= Q]. apply (f_equal queryStructs) in Q. simpl in Q.
  apply (f_equal (@length _)) in Q. rewrite length_app in Q. simpl in Q. lia.
Qed.

Lemma Count_leaves_request_in_sling_witness :
  exists (x : Result) (w' : World),
    OrderService_Count (mkOrderService 0 1) 0 (Some OrderListParams_zero)
                       (world0 offline) = Some (x, w')
    /\ heap w' !! 0
       = Some (OSling (mkSling "GET"
                         (ResolveReference (rawURL base_sling) "count")
                         (header base_sling)
                         (queryStructs base_sling ++ [Some OrderListParams_zero])
                         (bodyProvider base_sling)))
    /\ heap w' !! 0 <> heap (world0 offline) !! 0.
Proof.
  apply (Count_leaves_request_in_sling (mkOrderService 0 1) 0
           (Some OrderListParams_zero) base_sling (world0 offline)).
  reflexivity.
Defined.
